(** * psi-collect: the image tag store, the storm catalogue and the tar fetcher

    A shallow embedding of
    - [src/python/Poststorm_Imagery/assigner/image_ref.py] (class [Image]),
    - [src/collector/ConnectionHandler.py] (class [ConnectionHandler]),
    - [src/tagger/Tar.py] (class [Tar]),
    and the properties of these three classes.

    Python strings are modelled by [string] restricted to the ASCII range:
    [str.lower], [len] and the regular expression class [\d] are the ASCII
    ones.  Python integers are unbounded, hence [Z]. *)

From Stdlib Require Import ZArith String Ascii List Bool Lia.
From stdpp Require Import base list strings pretty.
Import ListNotations.

Local Open Scope string_scope.

(** ** Python strings *)

Module PyStr.

(** [c.lower()] on one ASCII character. *)
Definition lower_ascii (c : ascii) : ascii :=
  let n := N_of_ascii c in
  if ((65 <=? n) && (n <=? 90))%N then ascii_of_N (n + 32) else c.

(** [s.lower()]. *)
Fixpoint lower (s : string) : string :=
  match s with
  | EmptyString => EmptyString
  | String c r => String (lower_ascii c) (lower r)
  end.

(** The class [\d]. *)
Definition is_digit (c : ascii) : bool :=
  let n := N_of_ascii c in ((48 <=? n) && (n <=? 57))%N.

Fixpoint all_digits (s : string) : bool :=
  match s with
  | EmptyString => true
  | String c r => is_digit c && all_digits r
  end.

(** [re.fullmatch('\\d+', s)] seen as a truth value: one digit at least,
    and digits only. *)
Definition fullmatch_digits (s : string) : bool :=
  match s with
  | EmptyString => false
  | String _ _ => all_digits s
  end.

Definition digit_value (c : ascii) : Z := Z.of_N (N_of_ascii c) - 48.

Fixpoint int_from (acc : Z) (s : string) : Z :=
  match s with
  | EmptyString => acc
  | String c r => int_from (10 * acc + digit_value c) r
  end.

(** [int(s)] on a string of decimal digits. *)
Definition int (s : string) : Z := int_from 0 s.

(** [bool(s)]: a string is true when it is not empty. *)
Definition truthy (s : string) : bool :=
  match s with
  | EmptyString => false
  | String _ _ => true
  end.

(** The characters of [s], each as a string of length one: what iterating
    over a [str] yields. *)
Fixpoint chars (s : string) : list string :=
  match s with
  | EmptyString => []
  | String c r => String c EmptyString :: chars r
  end.

End PyStr.

(** ** Tag values *)

(** What [taggers[user_id][tag]] holds: a [str], a [bool], an [int], or
    [None] once the tag was removed. *)
Inductive pyval : Type :=
| VStr (s : string)
| VBool (b : bool)
| VInt (z : Z)
| VNone.

Definition is_str (v : pyval) : bool :=
  match v with
  | VStr _ => true
  | _ => false
  end.

(** [str(v)]. *)
Definition py_str (v : pyval) : string :=
  match v with
  | VStr s => s
  | VBool true => "True"
  | VBool false => "False"
  | VInt z => pretty z
  | VNone => "None"
  end.

(** [a or b] on two strings: [a] when it is not empty, else [b]. *)
Definition py_or_str (a b : string) : string :=
  if PyStr.truthy a then a else b.

(** Lines 47-53 of [add_tag], the coercion of [content]:
    [if content.lower() == ('true' or 'false'): content = bool(content)]
    [elif re.fullmatch('\\d+', content): content = int(content)]. *)
Definition coerce_content (content : string) : pyval :=
  if String.eqb (PyStr.lower content) (py_or_str "true" "false")
  then VBool (PyStr.truthy content)
  else if PyStr.fullmatch_digits content
       then VInt (PyStr.int content)
       else VStr content.

(** The normalization as the specification words it (section 4.1): a
    spelling of true gives the boolean true, a spelling of false the boolean
    false, a string of digits its integer, and any other text itself.  It
    is not taken from the code; it is what the coercion of [add_tag] is
    compared with. *)
Definition spec_normalize (raw : string) : pyval :=
  if String.eqb (PyStr.lower raw) "true" then VBool true
  else if String.eqb (PyStr.lower raw) "false" then VBool false
  else if PyStr.fullmatch_digits raw then VInt (PyStr.int raw)
  else VStr raw.

(** ** Dictionaries

    A Python [dict] with [str] keys keeps its keys in insertion order, and
    assigning to a key that is present keeps its place. *)

Abbreviation dict V := (list (string * V)) (only parsing).

Fixpoint dict_get {V : Type} (k : string) (d : dict V) : option V :=
  match d with
  | [] => None
  | (k', v) :: r => if String.eqb k k' then Some v else dict_get k r
  end.

Fixpoint dict_set {V : Type} (k : string) (v : V) (d : dict V) : dict V :=
  match d with
  | [] => [(k, v)]
  | (k', v') :: r =>
      if String.eqb k k' then (k', v) :: r else (k', v') :: dict_set k v r
  end.

Definition dict_keys {V : Type} (d : dict V) : list string := map fst d.

(** [k in keys] *)
Fixpoint key_in (k : string) (ks : list string) : bool :=
  match ks with
  | [] => false
  | k' :: r => if String.eqb k k' then true else key_in k r
  end.

(** ** The object store

    [Image.skippers] and [Image.taggers] are class attributes: one [set] and
    one [dict], made once when the class body runs.  [save] makes copies
    that become attributes of one instance.  The values of a taggers
    dictionary are dictionaries themselves, shared by every copy of the
    outer one.  So containers live in a store and are named by their
    location. *)

Abbreviation loc := nat (only parsing).

Record heap : Type := mkHeap {
  sets : list (list string);       (* the [set] objects (of user ids) *)
  outers : list (dict loc);        (* the [Dict[str, Dict]] objects *)
  inners : list (dict pyval)       (* the per-user [dict] objects *)
}.

Inductive exn : Type :=
| NotEnoughTaggersError            (* class NotEnoughTaggersError(ValueError) *)
| ValueError
| KeyError
| ReError                          (* re.error: a pattern that does not compile *)
| OSError.                         (* what a failed retrieval raises *)

(** How a call ends: it returns, it raises, or it reads a location that
    holds no object.  The last one has no counterpart in a Python run. *)
Inductive outcome (A : Type) : Type :=
| Ok (a : A)
| Raise (e : exn)
| Dangling.

Arguments Ok {A} a.
Arguments Raise {A} e.
Arguments Dangling {A}.

Definition M (A : Type) : Type := heap -> outcome A * heap.

Definition ret {A : Type} (a : A) : M A := fun h => (Ok a, h).

Definition raise {A : Type} (e : exn) : M A := fun h => (Raise e, h).

Definition bind {A B : Type} (m : M A) (f : A -> M B) : M B :=
  fun h =>
    match m h with
    | (Ok a, h') => f a h'
    | (Raise e, h') => (Raise e, h')
    | (Dangling, h') => (Dangling, h')
    end.

Declare Scope py_scope.
Delimit Scope py_scope with py.
Notation "x <- m ;; k" := (bind m (fun x => k))
  (at level 100, m at next level, right associativity) : py_scope.
Notation "m ;;; k" := (bind m (fun _ => k))
  (at level 100, right associativity) : py_scope.
Local Open Scope py_scope.

(** Reading and writing the store. *)

Definition read_outer (l : loc) : M (dict loc) :=
  fun h =>
    match outers h !! l with
    | Some d => (Ok d, h)
    | None => (Dangling, h)
    end.

Definition write_outer (l : loc) (d : dict loc) : M unit :=
  fun h => (Ok tt, mkHeap (sets h) (<[l := d]> (outers h)) (inners h)).

Definition read_inner (l : loc) : M (dict pyval) :=
  fun h =>
    match inners h !! l with
    | Some d => (Ok d, h)
    | None => (Dangling, h)
    end.

Definition write_inner (l : loc) (d : dict pyval) : M unit :=
  fun h => (Ok tt, mkHeap (sets h) (outers h) (<[l := d]> (inners h))).

Definition read_set (l : loc) : M (list string) :=
  fun h =>
    match sets h !! l with
    | Some s => (Ok s, h)
    | None => (Dangling, h)
    end.

(** [dict()]: a new, empty per-user dictionary. *)
Definition new_inner : M loc :=
  fun h => (Ok (length (inners h)),
            mkHeap (sets h) (outers h) (inners h ++ [[]])).

(** [d.copy()] on a taggers dictionary: a new outer dictionary with the same
    keys and the same values, which are the same per-user dictionaries. *)
Definition copy_outer (l : loc) : M loc :=
  d <- read_outer l ;;
  fun h => (Ok (length (outers h)),
            mkHeap (sets h) (outers h ++ [d]) (inners h)).

(** [s.copy()] on a set. *)
Definition copy_set (l : loc) : M loc :=
  s <- read_set l ;;
  fun h => (Ok (length (sets h)),
            mkHeap (sets h ++ [s]) (outers h) (inners h)).

(** [d[k]] on an outer dictionary. *)
Definition outer_getitem (l : loc) (k : string) : M loc :=
  d <- read_outer l ;;
  match dict_get k d with
  | Some v => ret v
  | None => raise KeyError
  end.

(** [d[k] = v] on an outer dictionary. *)
Definition outer_setitem (l : loc) (k : string) (v : loc) : M unit :=
  d <- read_outer l ;;
  write_outer l (dict_set k v d).

(** [d[k]] on a per-user dictionary. *)
Definition inner_getitem (l : loc) (k : string) : M pyval :=
  d <- read_inner l ;;
  match dict_get k d with
  | Some v => ret v
  | None => raise KeyError
  end.

(** [d[k] = v] on a per-user dictionary. *)
Definition inner_setitem (l : loc) (k : string) (v : pyval) : M unit :=
  d <- read_inner l ;;
  write_inner l (dict_set k v d).

(** ** class Image *)

(** The two class attributes, in the order the class body makes them. *)
Definition cls_skippers : loc := 0.
Definition cls_taggers : loc := 0.

(** The store once the module is loaded: an empty [Image.skippers] and an
    empty [Image.taggers]. *)
Definition module_init : heap := mkHeap [[]] [[]] [].

(** An instance.  [own_skippers] and [own_taggers] are the instance
    attributes of these names, absent until [save] assigns them. *)
Record Image : Type := mkImage {
  original_size_path : string;
  small_size_path : string;
  own_skippers : option loc;
  own_taggers : option loc
}.

(** [self.skippers] and [self.taggers]: the instance attribute when there is
    one, the class attribute otherwise. *)
Definition skippers_ref (self : Image) : loc :=
  match own_skippers self with
  | Some l => l
  | None => cls_skippers
  end.

Definition taggers_ref (self : Image) : loc :=
  match own_taggers self with
  | Some l => l
  | None => cls_taggers
  end.

(** [Image(original_size_path, small_size_path)]: [__init__] assigns the two
    paths and nothing else. *)
Definition Image_init (original small : string) : M Image :=
  ret (mkImage original small None None).

(** [get_taggers]: [self.taggers.keys()]. *)
Definition get_taggers (self : Image) : M (list string) :=
  d <- read_outer (taggers_ref self) ;;
  ret (dict_keys d).

(** Lines 44-45 and 67-68:
    [if user_id not in self.get_taggers(): self.taggers[user_id] = dict()]. *)
Definition ensure_tagger (self : Image) (user_id : string) : M unit :=
  ks <- get_taggers self ;;
  if key_in user_id ks then ret tt
  else (l <- new_inner ;; outer_setitem (taggers_ref self) user_id l).

(** [self.taggers[user_id][tag] = v]. *)
Definition store_tag (self : Image) (user_id tag : string) (v : pyval) : M unit :=
  l <- outer_getitem (taggers_ref self) user_id ;;
  inner_setitem l tag v.

Definition add_tag (self : Image) (user_id tag content : string) : M unit :=
  ensure_tagger self user_id ;;;
  store_tag self user_id tag (coerce_content content).

Definition remove_tag (self : Image) (user_id tag : string) : M unit :=
  ensure_tagger self user_id ;;;
  store_tag self user_id tag VNone.

Definition update_tag (self : Image) (user_id tag content : string) : M unit :=
  add_tag self user_id tag content.

(** [self.taggers[user_id][tag]], the read of one tag. *)
Definition read_tag (self : Image) (user_id tag : string) : M pyval :=
  l <- outer_getitem (taggers_ref self) user_id ;;
  inner_getitem l tag.

(** [save]: [self.skippers = self.skippers.copy()], then
    [self.taggers = self.taggers.copy()], then [return self]. *)
Definition save (self : Image) : M Image :=
  s <- copy_set (skippers_ref self) ;;
  t <- copy_outer (taggers_ref self) ;;
  ret (mkImage (original_size_path self) (small_size_path self) (Some s) (Some t)).

(** One change of one tag by one user: a call of [add_tag] (which
    [update_tag] forwards to) or of [remove_tag]. *)
Inductive mutation : Type :=
| Add (user_id tag content : string)
| Remove (user_id tag : string).

Definition mutation_user (m : mutation) : string :=
  match m with
  | Add user_id _ _ => user_id
  | Remove user_id _ => user_id
  end.

Definition mutate (self : Image) (m : mutation) : M unit :=
  match m with
  | Add user_id tag content => add_tag self user_id tag content
  | Remove user_id tag => remove_tag self user_id tag
  end.

(** *** The summary and the consensus *)

(** [tag_totals[tag][value] = <number of user_ids>]; a local object of
    [_sum_tag_values_by_users], handed to its caller when the loops end. *)
Abbreviation totals := (dict (dict Z)) (only parsing).

Definition lift {A : Type} (o : outcome A) : M A := fun h => (o, h).

(** The target [tag, value] of the inner [for]: the item is unpacked, and an
    item that does not yield two values raises [ValueError].  The items are
    the keys of a per-user dictionary ([for ... in self.taggers[user_id]]
    iterates over the keys), so an item is a [str] and yields its
    characters. *)
Definition unpack_pair (item : string) : outcome (string * pyval) :=
  match PyStr.chars item with
  | [a; b] => Ok (a, VStr b)
  | _ => Raise ValueError
  end.

(** Lines 130-138, the body of the inner [for].  [tag_totals[tag]] and
    [tag_totals[tag][str(value)]] raise [KeyError] on a key that is absent;
    when they return, what they return is a [dict], or an [int], and is not
    [None]. *)
Definition sum_body (tag : string) (value : pyval) (tag_totals : totals)
  : outcome totals :=
  if is_str value then Ok tag_totals
  else
    match dict_get tag tag_totals with
    | None => Raise KeyError
    | Some per_value =>
        match dict_get (py_str value) per_value with
        | None => Raise KeyError
        | Some n =>
            Ok (dict_set tag (dict_set (py_str value) (n + 1)%Z per_value)
                  tag_totals)
        end
    end.

(** [for tag, value in self.taggers[user_id]: ...] *)
Fixpoint for_items (items : list string) (tag_totals : totals) : outcome totals :=
  match items with
  | [] => Ok tag_totals
  | item :: rest =>
      match unpack_pair item with
      | Ok (tag, value) =>
          match sum_body tag value tag_totals with
          | Ok tag_totals' => for_items rest tag_totals'
          | Raise e => Raise e
          | Dangling => Dangling
          end
      | Raise e => Raise e
      | Dangling => Dangling
      end
  end.

(** [for user_id in self.get_taggers(): ...] *)
Fixpoint for_users (self : Image) (users : list string) (tag_totals : totals)
  : M totals :=
  match users with
  | [] => ret tag_totals
  | user_id :: rest =>
      l <- outer_getitem (taggers_ref self) user_id ;;
      d <- read_inner l ;;
      tag_totals' <- lift (for_items (dict_keys d) tag_totals) ;;
      for_users self rest tag_totals'
  end.

Definition _sum_tag_values_by_users (self : Image) : M totals :=
  users <- get_taggers self ;;
  for_users self users [].

(** Lines 159-166: [for tag in tag_totals:]
    [if len(tag_totals[tag].keys()) > 2: return False], then [return True]. *)
Fixpoint for_totals (tags : list string) (tag_totals : totals) : outcome bool :=
  match tags with
  | [] => Ok true
  | tag :: rest =>
      match dict_get tag tag_totals with
      | None => Raise KeyError
      | Some per_value =>
          if (2 <? length (dict_keys per_value))%nat then Ok false
          else for_totals rest tag_totals
      end
  end.

Definition all_user_tags_equal (self : Image) : M bool :=
  users <- get_taggers self ;;
  if (length users <? 2)%nat then raise NotEnoughTaggersError
  else
    (tag_totals <- _sum_tag_values_by_users self ;;
     lift (for_totals (dict_keys tag_totals) tag_totals)).

(** *** What an image shows of the store *)

(** The taggers dictionary at [t] exists, and so does every per-user
    dictionary it names: the store describes Python objects. *)
Definition wf_taggers (h : heap) (t : loc) : bool :=
  match outers h !! t with
  | Some d => forallb (fun kv => (snd kv <? length (inners h))%nat) d
  | None => false
  end.

Fixpoint deref_all (h : heap) (d : dict loc) : option (dict (dict pyval)) :=
  match d with
  | [] => Some []
  | (k, l) :: r =>
      match inners h !! l, deref_all h r with
      | Some i, Some r' => Some ((k, i) :: r')
      | _, _ => None
      end
  end.

(** The whole of [self.taggers], per-user dictionaries included: what
    pickling [self] would write. *)
Definition taggers_view (self : Image) (h : heap)
  : option (dict (dict pyval)) :=
  match outers h !! taggers_ref self with
  | Some d => deref_all h d
  | None => None
  end.

(** The contents of [self.skippers]. *)
Definition skippers_view (self : Image) (h : heap) : option (list string) :=
  sets h !! skippers_ref self.

(** The store describes the containers of [self]: its taggers dictionary
    with its per-user dictionaries, and its skippers set. *)
Definition wf_image (h : heap) (self : Image) : bool :=
  wf_taggers h (taggers_ref self)
  && match sets h !! skippers_ref self with
     | Some _ => true
     | None => false
     end.

(** The store after a call. *)
Definition exec {A : Type} (m : M A) (h : heap) : heap := snd (m h).

(** The two images and the store of the scenarios: users A and B tag one
    image with "damage". *)
Definition img_a : Image := mkImage "a.jpg" "a_small.jpg" None None.

Definition damage_true_false : heap :=
  exec (add_tag img_a "B" "damage" "false")
    (exec (add_tag img_a "A" "damage" "true") module_init).

(** An image that still reads the containers of the class. *)
Definition img_b : Image := mkImage "b.jpg" "b_small.jpg" None None.

(** "[save] forces a deep copy": whatever is changed afterwards through the
    containers the image had before [save], what [save] returned shows the
    same taggers, per-user dictionaries included. *)
Definition save_isolates_snapshot : Prop :=
  forall (self other : Image) (m : mutation) (h h1 : heap) (s : Image),
    wf_image h self = true ->
    taggers_ref other = taggers_ref self ->
    save self h = (Ok s, h1) ->
    taggers_view s (exec (mutate other m) h1) = taggers_view s h1.

(** ** class ConnectionHandler *)

Section Collector.

(** [Storm] is imported from [src.collector.Storm]; its constructor takes the
    four groups of a match.  The regular expressions of [re] are taken as
    given: [re_compile] is [re.compile(_, re.IGNORECASE)], which raises
    [re.error] on a pattern that does not compile ([None] here),
    [re_search] is [re.search] seen as a truth value, and [findall_index] is
    [re.findall(URL_STORMS_REGEX_PATTERN_INDEX, _)]. *)
Variable Storm : Type.
Variable mkStorm : string -> string -> string -> string -> Storm.
Variable regex : Type.
Variable re_compile : string -> option regex.
Variable re_search : regex -> string -> bool.
Variable findall_index : string -> list (string * string * string * string).

(** An instance.  [generate_calls] is not an attribute of the class: it
    counts the calls of [generate_storm_list] on this instance. *)
Record ConnectionHandler : Type := mkHandler {
  r_text : string;                           (* self.r.text *)
  storm_list : list Storm;
  storm_list_last_pattern : option string;   (* None, or the last pattern *)
  generate_calls : nat
}.

(** Lines 73-78: the loop over the matches, appending to [self.storm_list]. *)
Fixpoint for_matches (search_re : regex)
  (found : list (string * string * string * string)) (acc : list Storm)
  : list Storm :=
  match found with
  | [] => acc
  | (storm_url, storm_id, storm_name, storm_year) :: rest =>
      if re_search search_re storm_id || re_search search_re storm_name
         || re_search search_re storm_year
      then for_matches search_re rest
             (acc ++ [mkStorm storm_url storm_id storm_name storm_year])
      else for_matches search_re rest acc
  end.

Definition generate_storm_list (self : ConnectionHandler) (search_re : string)
  : outcome unit * ConnectionHandler :=
  let cleared :=
    mkHandler (r_text self) [] (Some search_re) (S (generate_calls self)) in
  match re_compile search_re with
  | None => (Raise ReError, cleared)
  | Some compiled =>
      (Ok tt,
       mkHandler (r_text self)
         (for_matches compiled (findall_index (r_text self)) [])
         (Some search_re) (S (generate_calls self)))
  end.

(** [search_re != self.storm_list_last_pattern] *)
Definition pattern_differs (search_re : string) (last : option string) : bool :=
  match last with
  | Some p => negb (String.eqb search_re p)
  | None => true
  end.

Definition get_storm_list (self : ConnectionHandler) (search_re : string)
  : outcome (list Storm) * ConnectionHandler :=
  if pattern_differs search_re (storm_list_last_pattern self)
  then
    match generate_storm_list self search_re with
    | (Ok _, self') => (Ok (storm_list self'), self')
    | (Raise e, self') => (Raise e, self')
    | (Dangling, self') => (Dangling, self')
    end
  else (Ok (storm_list self), self).

(** [ConnectionHandler()], [text] being the text of the response:
    [__init__] calls [self.generate_storm_list()]. *)
Definition ConnectionHandler_init (text : string)
  : outcome unit * ConnectionHandler :=
  generate_storm_list (mkHandler text [] None 0) ".*".

End Collector.

Arguments mkHandler {Storm} _ _ _ _.
Arguments r_text {Storm} _.
Arguments storm_list {Storm} _.
Arguments storm_list_last_pattern {Storm} _.
Arguments generate_calls {Storm} _.

(** ** class Tar *)

Section TarFetch.

(** The file system and the network are taken as given: [isfile] is
    [os.path.isfile], [print] writes a line, and [retrieve url path] is the
    [with ProgressBar(...)] block around [urllib.request.urlretrieve], which
    may raise. *)
Variable world : Type.
Variable isfile : string -> world -> bool.
Variable print : string -> world -> world.
Variable retrieve : string -> string -> world -> outcome unit * world.

Record Tar : Type := mkTar {
  tar_date : string;
  tar_url : string;
  tar_label : string;
  tar_file_name : string;
  tar_file_path : option string    (* not assigned before [download_url] *)
}.

Definition set_tar_file_path (self : Tar) (p : string) : Tar :=
  mkTar (tar_date self) (tar_url self) (tar_label self) (tar_file_name self)
    (Some p).

Definition download_url (self : Tar) (output_file_dir_path : string)
  (overwrite : bool) (w : world) : outcome unit * Tar * world :=
  let p := output_file_dir_path ++ tar_file_name self ++ ".tar" in
  let self' := set_tar_file_path self p in
  if negb overwrite then
    if isfile p w
    then (Ok tt, self', print ("A file at " ++ p ++ " already exists") w)
    else
      match retrieve (tar_url self) p w with
      | (o, w') => (o, self', w')
      end
  else (Ok tt, self', w).

End TarFetch.

(** ** Further definitions for class Image *)

(** No key twice, as in every [dict]. *)
Fixpoint unique_keys (ks : list string) : bool :=
  match ks with
  | [] => true
  | k :: r => negb (key_in k r) && unique_keys r
  end.

(** No location twice: no per-user dictionary stands under two users. *)
Fixpoint distinct_locs (ls : list nat) : bool :=
  match ls with
  | [] => true
  | l :: r => negb (existsb (Nat.eqb l) r) && distinct_locs r
  end.

(** The taggers dictionary at [t] is a dictionary of the store, its keys
    are pairwise different, and so are the per-user dictionaries it names:
    what holds of [Image.taggers] and of its copies, since [ensure_tagger]
    is the only place that adds a user, with a new dictionary. *)
Definition wf_dict (h : heap) (t : loc) : bool :=
  wf_taggers h t
  && match outers h !! t with
     | Some d => unique_keys (dict_keys d) && distinct_locs (map snd d)
     | None => false
     end.

Definition mutation_tag (m : mutation) : string :=
  match m with
  | Add _ tag _ => tag
  | Remove _ tag => tag
  end.

(** The value a mutation stores. *)
Definition mutation_value (m : mutation) : pyval :=
  match m with
  | Add _ _ content => coerce_content content
  | Remove _ _ => VNone
  end.

(** The item unpacks into [tag, value]: it has two characters. *)
Definition key_unpacks (item : string) : bool :=
  match PyStr.chars item with
  | [_; _] => true
  | _ => false
  end.

(** The tag names of user [u], read as [self.taggers[u]] reads them. *)
Definition tags_of (h : heap) (d : dict loc) (u : string) : option (list string) :=
  match dict_get u d with
  | Some l =>
      match inners h !! l with
      | Some i => Some (dict_keys i)
      | None => None
      end
  | None => None
  end.

(** Every tag name of every user has two characters. *)
Definition all_tags_unpack (h : heap) (d : dict loc) : bool :=
  forallb
    (fun u =>
       match tags_of h d u with
       | Some ks => forallb key_unpacks ks
       | None => false
       end)
    (dict_keys d).

(** ** expanded *)

(** [copy.deepcopy] keeps a memo of the objects it has copied, so that an
    object met twice is copied once. *)
Fixpoint memo_get (l : loc) (memo : list (loc * loc)) : option loc :=
  match memo with
  | [] => None
  | (a, b) :: r => if Nat.eqb l a then Some b else memo_get l r
  end.

(** The deep copy of a per-user dictionary: a new dictionary with the same
    items, its values being of [str], [bool], [int] or [None]. *)
Definition deepcopy_inner (l : loc) : M loc :=
  i <- read_inner l ;;
  fun h => (Ok (length (inners h)),
            mkHeap (sets h) (outers h) (inners h ++ [i])).

(** The items of a taggers dictionary, copied in their order. *)
Fixpoint deepcopy_items (d : dict loc) (memo : list (loc * loc))
  : M (dict loc * list (loc * loc)) :=
  match d with
  | [] => ret ([], memo)
  | (k, l) :: r =>
      match memo_get l memo with
      | Some l' =>
          p <- deepcopy_items r memo ;;
          ret ((k, l') :: fst p, snd p)
      | None =>
          l' <- deepcopy_inner l ;;
          p <- deepcopy_items r ((l, l') :: memo) ;;
          ret ((k, l') :: fst p, snd p)
      end
  end.

(** The deep copy of a taggers dictionary. *)
Definition deepcopy_outer (t : loc) : M loc :=
  d <- read_outer t ;;
  p <- deepcopy_items d [] ;;
  fun h => (Ok (length (outers h)),
            mkHeap (sets h) (outers h ++ [fst p]) (inners h)).

(** [deepcopy(x=self)]: a new instance whose attributes are deep copies of
    the attributes of the instance, in the order they were assigned: the
    two paths, then [skippers] and [taggers] when [save] has assigned them.
    The attributes of the class are not attributes of the instance and are
    not copied. *)
Definition deepcopy_image (self : Image) : M Image :=
  s <- match own_skippers self with
       | Some l => (l' <- copy_set l ;; ret (Some l'))
       | None => ret None
       end ;;
  t <- match own_taggers self with
       | Some l => (l' <- deepcopy_outer l ;; ret (Some l'))
       | None => ret None
       end ;;
  ret (mkImage (original_size_path self) (small_size_path self) s t).

(** The per-user dictionaries a taggers dictionary names, in its order. *)
Fixpoint inner_contents (h : heap) (d : dict loc) : list (dict pyval) :=
  match d with
  | [] => []
  | (_, l) :: r =>
      match inners h !! l with
      | Some i => i :: inner_contents h r
      | None => inner_contents h r
      end
  end.

Section Expanded.

(** [path_join] is [os.path.join]; [validate_and_expand_path] is the helper
    of [Poststorm_Imagery.h], taken as given; it may raise. *)
Variable path_join : string -> string -> string.
Variable validate_and_expand_path : string -> outcome string.

Definition expanded (self : Image) (scope_path : string) : M Image :=
  expanded_copy <- deepcopy_image self ;;
  o <- lift (validate_and_expand_path
               (path_join scope_path (original_size_path self))) ;;
  s <- lift (validate_and_expand_path
               (path_join scope_path (small_size_path self))) ;;
  ret (mkImage o s (own_skippers expanded_copy) (own_taggers expanded_copy)).

End Expanded.

(** The image [img_a] once saved, with its own containers. *)
Definition saved_store : heap :=
  mkHeap [[]; []] [[("A", 0); ("B", 1)]; [("A", 0); ("B", 1)]]
    [[("damage", VBool true)]; [("damage", VStr "false")]].

Definition img_saved : Image := mkImage "a.jpg" "a_small.jpg" (Some 1) (Some 1).

(** ** get_http_response and the making of a ConnectionHandler *)

(** A response of [requests]: its status code, an [int], and its text. *)
Record Response : Type := mkResponse {
  status_code : Z;
  text : string
}.

(** An exception: whether its class derives from [Exception] (those of
    [KeyboardInterrupt] and [SystemExit] do not), and its [str]. *)
Record pyexc : Type := mkExc {
  is_Exception : bool;
  exc_str : string
}.

(** How [get_http_response] ends: it returns a response or [None], an
    exception leaves it, or [exit()] is reached. *)
Inductive http_result : Type :=
| Returned (r : option Response)
| Propagated (e : pyexc)
| Exited.

(** [requests.codes.ok] *)
Definition codes_ok : Z := 200.

Section Http.

(** The network and the terminal are taken as given: [requests_get] is
    [requests.get], which returns a response or raises, and [print] writes
    a line.  [concat_msg] is the text of the [TypeError] that [str + int]
    raises. *)
Variable world : Type.
Variable requests_get : string -> world -> (Response + pyexc) * world.
Variable print : string -> world -> world.
Variable concat_msg : string.

(** [s + n] for a [str] and an [int]: a [TypeError], which derives from
    [Exception]. *)
Definition add_str_int (s : string) (n : Z) : string + pyexc :=
  inr (mkExc true concat_msg).

(** Lines 35-37, the handler [except Exception as e]; after it the function
    ends without a [return]. *)
Definition http_handler (url : string) (e : pyexc) (w : world)
  : http_result * world :=
  if is_Exception e
  then (Returned None,
        print ("Error: " ++ exc_str e)
          (print ("Error occurred while trying to connect to " ++ url) w))
  else (Propagated e, w).

Definition get_http_response (url : string) (w : world) : http_result * world :=
  match requests_get url w with
  | (inr e, w1) => http_handler url e w1
  | (inl r, w1) =>
      if (status_code r =? codes_ok)%Z then (Returned (Some r), w1)
      else
        match add_str_int "Connection refused! Returned code: " (status_code r) with
        | inr e => http_handler url e w1
        | inl line => (Exited, print line w1)
        end
  end.

End Http.

(** How [ConnectionHandler()] ends. *)
Inductive init_result (Storm : Type) : Type :=
| InitDone (o : outcome unit) (self : ConnectionHandler Storm)
| InitAttributeError       (* self.r is None: it has no attribute 'text' *)
| InitReError
| InitPropagated (e : pyexc)
| InitExited.

Arguments InitDone {Storm} o self.
Arguments InitAttributeError {Storm}.
Arguments InitReError {Storm}.
Arguments InitPropagated {Storm} e.
Arguments InitExited {Storm}.

Definition URL_BASE : string := "https://storms.ngs.noaa.gov/".

Section HandlerInit.

Variable Storm : Type.
Variable mkStorm : string -> string -> string -> string -> Storm.
Variable regex : Type.
Variable re_compile : string -> option regex.
Variable re_search : regex -> string -> bool.
Variable findall_index : string -> list (string * string * string * string).
Variable world : Type.
Variable requests_get : string -> world -> (Response + pyexc) * world.
Variable print : string -> world -> world.
Variable concat_msg : string.

(** [__init__]: [self.r = get_http_response(URL_BASE)], then
    [self.generate_storm_list()].  With [self.r] being [None],
    [generate_storm_list] runs up to [re.compile] and then fails on
    [self.r.text]. *)
Definition ConnectionHandler_new (w : world) : init_result Storm * world :=
  match get_http_response world requests_get print concat_msg URL_BASE w with
  | (Returned (Some r), w1) =>
      match ConnectionHandler_init Storm mkStorm regex re_compile re_search
              findall_index (text r) with
      | (o, self) => (InitDone o self, w1)
      end
  | (Returned None, w1) =>
      match re_compile ".*" with
      | Some _ => (InitAttributeError, w1)
      | None => (InitReError, w1)
      end
  | (Propagated e, w1) => (InitPropagated e, w1)
  | (Exited, w1) => (InitExited, w1)
  end.

End HandlerInit.

(** ** More of class Tar, and ProgressBar *)

(** How [get_tar_info] ends. *)
Inductive info_result (A : Type) : Type :=
| InfoOk (a : A)
| InfoRaise (e : exn)
| InfoAttributeError.    (* self.tar_file_path was never assigned *)

Arguments InfoOk {A} a.
Arguments InfoRaise {A} e.
Arguments InfoAttributeError {A}.

Section TarInfo.

(** [open_members path] is [tarfile.open(path, 'r')] followed by
    [getmembers()]; it may raise. *)
Variable world : Type.
Variable member : Type.
Variable open_members : string -> world -> (list member + exn) * world.

(** [get_tar_info], with [tar_index] beside the instance: [None] as long as
    the class attribute is read, the list of members once it is assigned. *)
Definition get_tar_info (self : Tar) (tar_index : option (list member)) (w : world)
  : info_result (list member) * option (list member) * world :=
  match tar_index with
  | None =>
      match tar_file_path self with
      | None => (InfoAttributeError, tar_index, w)
      | Some p =>
          match open_members p w with
          | (inl ms, w1) => (InfoOk ms, Some ms, w1)
          | (inr e, w1) => (InfoRaise e, tar_index, w1)
          end
      end
  | Some ms => (InfoOk ms, tar_index, w)
  end.

End TarInfo.

Section Progress.

(** A progress bar of [tqdm]: the attributes [n] and [total] that
    [update_to] reads and writes, and [update], the method of [tqdm] that
    [update_to] calls. *)
Variable bar : Type.
Variable bar_n : bar -> Z.
Variable set_total : Z -> bar -> bar.
Variable update : Z -> bar -> bar.

(** [update_to(b, b_size, t_size)] *)
Definition update_to (b b_size : Z) (t_size : option Z) (self : bar) : bar :=
  let self1 :=
    match t_size with
    | Some t => set_total t self
    | None => self
    end in
  update (b * b_size - bar_n self1) self1.

End Progress.

(** ** The download loop of collect.py *)

Inductive loop_result : Type :=
| LoopDone
| LoopRaised (e : pyexc)
| LoopOutOfFuel.

Section DownloadLoop.

(** [download] is the call [tar.download_url(...)] of line 71; [print] and
    [sleep] are the two effects of the second handler.  [is_interrupt e]
    says that [e] is an instance of [KeyboardInterrupt] or of [SystemExit];
    [not_a_class] is the [TypeError] raised when an [except] clause is given
    a value that is no exception class, and [concat_error] the one raised by
    [str + e]. *)
Variable world : Type.
Variable download : world -> (unit + pyexc) * world.
Variable is_interrupt : pyexc -> bool.
Variable print : string -> world -> world.
Variable sleep : Z -> world -> world.
Variable not_a_class : pyexc.
Variable concat_error : pyexc.

(** What follows [except]: the tuple [(KeyboardInterrupt, SystemExit)], or
    a truth value. *)
Inductive clause : Type :=
| Interrupts
| Value (b : bool).

(** [not (KeyboardInterrupt, SystemExit)]: a tuple that is not empty is
    true, so this is [False]. *)
Definition not_interrupts : clause := Value (negb true).

(** Whether a clause catches [e]; a clause that is no class raises. *)
Definition clause_catches (c : clause) (e : pyexc) : bool + pyexc :=
  match c with
  | Interrupts => inl (is_interrupt e)
  | Value _ => inr not_a_class
  end.

(** [s + e] for a [str] and an exception. *)
Definition add_str_exc (s : string) (e : pyexc) : string + pyexc :=
  inr concat_error.

(** Lines 69-79: [while download_incomplete: try: ... except ...]. *)
Fixpoint download_loop (fuel : nat) (w : world) : loop_result * world :=
  match fuel with
  | O => (LoopOutOfFuel, w)
  | S fuel' =>
      match download w with
      | (inl _, w1) => (LoopDone, w1)
      | (inr e, w1) =>
          match clause_catches Interrupts e with
          | inr te => (LoopRaised te, w1)
          | inl true => (LoopRaised e, w1)
          | inl false =>
              match clause_catches not_interrupts e with
              | inr te => (LoopRaised te, w1)
              | inl false => (LoopRaised e, w1)
              | inl true =>
                  match add_str_exc "The download encountered an error: " e with
                  | inr te => (LoopRaised te, w1)
                  | inl line =>
                      download_loop fuel'
                        (sleep 10
                           (print "Will retry download in 10 seconds..."
                              (print line w1)))
                  end
              end
          end
      end
  end.

End DownloadLoop.

(** A page with two storms, and a toy [re]: a pattern finds the strings
    equal to it, and "(" does not compile. *)
Definition toy_compile (p : string) : option string :=
  if String.eqb p "(" then None else Some p.

Definition toy_page (_ : string) : list (string * string * string * string) :=
  [("u1", "florence", "Hurricane Florence ", "2018");
   ("u2", "michael", "Hurricane Michael ", "2018")].

Definition toy_handler : ConnectionHandler (string * string) :=
  mkHandler "page" [] None 0.

(** A toy network and terminal: the site answers 404, and the lines
    printed are kept, the last one first. *)
Definition toy_get (_ : string) (w : list string)
  : (Response + pyexc) * list string :=
  (inl (mkResponse 404 "Not Found"), w).

Definition toy_print (line : string) (w : list string) : list string :=
  line :: w.

(** A toy archive reader: the archive at "cache/a.tar" has two members. *)
Definition toy_open (p : string) (w : list string)
  : (list string + exn) * list string :=
  if String.eqb p "cache/a.tar" then (inl ["x.jpg"; "y.jpg"], p :: w)
  else (inr OSError, w).

Definition toy_tar : Tar :=
  mkTar "Unknown" "https://storms.ngs.noaa.gov/a.tar" "Unknown" "a" None.

(** * Properties *)

(** ** Strings and the coercion of add_tag *)

Lemma lower_digit (c : ascii) : PyStr.is_digit c = true -> PyStr.lower_ascii c = c.
Proof.
  destruct c as [[] [] [] [] [] [] [] []]; vm_compute; congruence.
Qed.

Lemma lower_all_digits (s : string) : PyStr.all_digits s = true -> PyStr.lower s = s.
Proof.
  induction s as [|c r IH]; simpl; [reflexivity|].
  intros H. apply andb_prop in H as [Hc Hr].
  rewrite (lower_digit c Hc), (IH Hr). reflexivity.
Qed.

Lemma py_or_true_false : py_or_str "true" "false" = "true".
Proof. reflexivity. Qed.

(** A spelling of true, in any case, becomes the boolean [True]. *)
Lemma coerce_true_any_case (s : string) :
  PyStr.lower s = "true" -> coerce_content s = VBool true.
Proof.
  intros H. unfold coerce_content. rewrite H, py_or_true_false. simpl.
  destruct s; [discriminate H | reflexivity].
Qed.

(** A string of digits becomes the integer it denotes. *)
Lemma coerce_digits (s : string) :
  PyStr.fullmatch_digits s = true -> coerce_content s = VInt (PyStr.int s).
Proof.
  intros H. unfold coerce_content. rewrite H, py_or_true_false.
  destruct (String.eqb_spec (PyStr.lower s) "true") as [E|_]; [|reflexivity].
  assert (D : PyStr.all_digits s = true) by (destruct s; [discriminate H | exact H]).
  rewrite (lower_all_digits s D) in E. subst s. discriminate D.
Qed.

(** Anything else is kept as it is. *)
Lemma coerce_other (s : string) :
  PyStr.lower s <> "true" -> PyStr.fullmatch_digits s = false ->
  coerce_content s = VStr s.
Proof.
  intros Ht Hd. unfold coerce_content. rewrite Hd, py_or_true_false.
  destruct (String.eqb_spec (PyStr.lower s) "true"); [contradiction | reflexivity].
Qed.

(** A spelling of false, in any case, is kept as text. *)
Lemma coerce_false_any_case (s : string) :
  PyStr.lower s = "false" -> coerce_content s = VStr s.
Proof.
  intros H. apply coerce_other.
  - rewrite H. discriminate.
  - destruct s as [|c r]; [reflexivity|].
    destruct (PyStr.fullmatch_digits (String c r)) eqn:D; [|reflexivity].
    change (PyStr.all_digits (String c r) = true) in D.
    rewrite (lower_all_digits _ D) in H. rewrite H in D. discriminate D.
Qed.

(** C2, at the input "false": the coercion of [add_tag] yields the text
    "false", not the boolean [False].  The test compares with
    [('true' or 'false')], which is ['true']; also "FALSE" stays text, while
    "true" and "TRUE" become [True] and "12" becomes [12]. *)
Theorem coerce_false_is_text :
  coerce_content "false" = VStr "false"
  /\ coerce_content "FALSE" = VStr "FALSE"
  /\ coerce_content "true" = VBool true
  /\ coerce_content "TRUE" = VBool true
  /\ coerce_content "12" = VInt 12.
Proof. repeat split; reflexivity. Qed.

(** ** Dictionaries *)

Section DictFacts.

Context {V : Type}.
Implicit Types (d : dict V) (k : string) (v : V).

Lemma dict_get_set_eq k v d : dict_get k (dict_set k v d) = Some v.
Proof.
  induction d as [|[k' v'] r IH]; simpl.
  - rewrite String.eqb_refl. reflexivity.
  - destruct (String.eqb k k') eqn:E; simpl; rewrite E; [reflexivity | exact IH].
Qed.

Lemma dict_set_set_eq k v d : dict_set k v (dict_set k v d) = dict_set k v d.
Proof.
  induction d as [|[k' v'] r IH]; simpl.
  - rewrite String.eqb_refl. reflexivity.
  - destruct (String.eqb k k') eqn:E; simpl; rewrite E; [reflexivity|].
    rewrite IH. reflexivity.
Qed.

Lemma key_in_dict_set k v d : key_in k (dict_keys (dict_set k v d)) = true.
Proof.
  induction d as [|[k' v'] r IH]; simpl.
  - rewrite String.eqb_refl. reflexivity.
  - destruct (String.eqb k k') eqn:E; simpl; rewrite E; [reflexivity | exact IH].
Qed.

Lemma key_in_true_get k d :
  key_in k (dict_keys d) = true -> exists v, dict_get k d = Some v.
Proof.
  induction d as [|[k' v'] r IH]; simpl; [discriminate|].
  destruct (String.eqb k k'); eauto.
Qed.

Lemma key_in_false_get k d :
  key_in k (dict_keys d) = false -> dict_get k d = None.
Proof.
  induction d as [|[k' v'] r IH]; simpl; [reflexivity|].
  destruct (String.eqb k k'); [discriminate | exact IH].
Qed.

Lemma dict_get_key_in k v d : dict_get k d = Some v -> key_in k (dict_keys d) = true.
Proof.
  induction d as [|[k' v'] r IH]; simpl; [discriminate|].
  destruct (String.eqb k k'); auto.
Qed.

Lemma forallb_dict_set (P : string * V -> bool) k v d :
  (forall k', P (k', v) = true) -> forallb P d = true ->
  forallb P (dict_set k v d) = true.
Proof.
  intros Hv. induction d as [|[k' v'] r IH]; simpl.
  - intros _. rewrite Hv. reflexivity.
  - intros H. apply andb_prop in H as [H1 H2].
    destruct (String.eqb k k'); simpl.
    + rewrite Hv, H2. reflexivity.
    + rewrite H1, (IH H2). reflexivity.
Qed.

End DictFacts.

(** ** The tag store *)

Lemma heap_eta (h : heap) : mkHeap (sets h) (outers h) (inners h) = h.
Proof. destruct h; reflexivity. Qed.

Lemma forallb_snd_get {V : Type} (f : V -> bool) (k : string) (v : V) (d : dict V) :
  forallb (fun kv => f (snd kv)) d = true -> dict_get k d = Some v -> f v = true.
Proof.
  induction d as [|[k' v'] r IH]; simpl; [discriminate|].
  intros H G. apply andb_prop in H as [H1 H2].
  destruct (String.eqb k k'); [congruence | auto].
Qed.

Lemma forallb_bound_le (n m : nat) (d : dict loc) :
  n <= m ->
  forallb (fun kv => (snd kv <? n)%nat) d = true ->
  forallb (fun kv => (snd kv <? m)%nat) d = true.
Proof.
  intros Hle H. rewrite forallb_forall in *. intros x Hx.
  specialize (H x Hx). apply Nat.ltb_lt in H. apply Nat.ltb_lt. lia.
Qed.

Section TagStore.

Variable self : Image.
Local Abbreviation t := (taggers_ref self).

Lemma ensure_tagger_present (u : string) (h : heap) (d : dict loc) :
  outers h !! t = Some d -> key_in u (dict_keys d) = true ->
  ensure_tagger self u h = (Ok tt, h).
Proof.
  intros Hd Hk. unfold ensure_tagger, get_taggers, read_outer, bind, ret.
  rewrite Hd, Hk. reflexivity.
Qed.

Lemma ensure_tagger_absent (u : string) (h : heap) (d : dict loc) :
  outers h !! t = Some d -> key_in u (dict_keys d) = false ->
  ensure_tagger self u h =
  (Ok tt, mkHeap (sets h) (<[t := dict_set u (length (inners h)) d]> (outers h))
            (inners h ++ [[]])).
Proof.
  intros Hd Hk.
  unfold ensure_tagger, get_taggers, outer_setitem, new_inner, read_outer,
    write_outer, bind, ret.
  rewrite Hd, Hk. simpl. rewrite Hd. reflexivity.
Qed.

Lemma store_tag_ok (u tag : string) (v : pyval) (h : heap) (d : dict loc)
  (l : loc) (i : dict pyval) :
  outers h !! t = Some d -> dict_get u d = Some l -> inners h !! l = Some i ->
  store_tag self u tag v h =
  (Ok tt, mkHeap (sets h) (outers h) (<[l := dict_set tag v i]> (inners h))).
Proof.
  intros Hd Hu Hi.
  unfold store_tag, outer_getitem, inner_setitem, read_outer, read_inner,
    write_inner, bind, ret.
  rewrite Hd, Hu. simpl. rewrite Hi. reflexivity.
Qed.

Lemma read_tag_ok (u tag : string) (v : pyval) (h : heap) (d : dict loc)
  (l : loc) (i : dict pyval) :
  outers h !! t = Some d -> dict_get u d = Some l -> inners h !! l = Some i ->
  dict_get tag i = Some v ->
  read_tag self u tag h = (Ok v, h).
Proof.
  intros Hd Hu Hi Hv.
  unfold read_tag, outer_getitem, inner_getitem, read_outer, read_inner,
    bind, ret.
  rewrite Hd, Hu. simpl. rewrite Hi, Hv. reflexivity.
Qed.

(** What [ensure_tagger] followed by [store_tag] does to a store that
    describes Python objects: it returns, the user is a key of the taggers
    dictionary, the user's dictionary holds the value under the tag, and the
    rest of the store is as before. *)
Lemma touch_ok (u tag : string) (v : pyval) (h : heap) :
  wf_taggers h t = true ->
  exists (h2 : heap) (d d2 : dict loc) (l : loc) (i : dict pyval),
    (ensure_tagger self u ;;; store_tag self u tag v) h = (Ok tt, h2)
    /\ outers h !! t = Some d
    /\ outers h2 !! t = Some d2
    /\ dict_get u d2 = Some l
    /\ inners h2 !! l = Some (dict_set tag v i)
    /\ wf_taggers h2 t = true
    /\ sets h2 = sets h
    /\ length (outers h2) = length (outers h)
    /\ (forall t', t' <> t -> outers h2 !! t' = outers h !! t')
    /\ (key_in u (dict_keys d) = true -> d2 = d)
    /\ (key_in u (dict_keys d) = false ->
        forall l', l' < length (inners h) -> inners h2 !! l' = inners h !! l').
Proof.
  unfold wf_taggers. destruct (outers h !! t) as [d|] eqn:Hd; [|discriminate].
  intros Hwf. destruct (key_in u (dict_keys d)) eqn:Hk.
  - destruct (key_in_true_get u d Hk) as [l Hl].
    pose proof (forallb_snd_get (fun x => (x <? length (inners h))%nat) u l d Hwf Hl) as Hlt.
    apply Nat.ltb_lt in Hlt.
    destruct (lookup_lt_is_Some_2 (inners h) l Hlt) as [i Hi].
    exists (mkHeap (sets h) (outers h) (<[l := dict_set tag v i]> (inners h))), d, d, l, i.
    unfold bind at 1. rewrite (ensure_tagger_present u h d Hd Hk).
    rewrite (store_tag_ok u tag v h d l i Hd Hl Hi). simpl.
    rewrite Hd, length_insert.
    repeat split; auto.
    + apply list_lookup_insert_eq; exact Hlt.
    + intros E. congruence.
  - set (n := length (inners h)).
    set (h1 := mkHeap (sets h) (<[t := dict_set u n d]> (outers h)) (inners h ++ [[]])).
    assert (Ht : t < length (outers h)) by (eapply lookup_lt_Some; exact Hd).
    assert (Hd1 : outers h1 !! t = Some (dict_set u n d))
      by (apply list_lookup_insert_eq; exact Ht).
    assert (Hi1 : inners h1 !! n = Some []) by (apply list_lookup_middle; reflexivity).
    exists (mkHeap (sets h1) (outers h1) (<[n := dict_set tag v []]> (inners h1))),
      d, (dict_set u n d), n, [].
    unfold bind at 1. rewrite (ensure_tagger_absent u h d Hd Hk). fold n h1.
    rewrite (store_tag_ok u tag v h1 _ n [] Hd1 (dict_get_set_eq u n d) Hi1).
    simpl. rewrite list_lookup_insert_eq by exact Ht.
    rewrite !length_insert, length_app. simpl.
    repeat split; auto.
    + apply dict_get_set_eq.
    + apply list_lookup_insert_eq. rewrite length_app. simpl. fold n. lia.
    + apply forallb_dict_set.
      * intros k'. simpl. apply Nat.ltb_lt. fold n. lia.
      * apply (forallb_bound_le (length (inners h))); [lia | exact Hwf].
    + intros t' Hne. apply list_lookup_insert_ne. congruence.
    + intros E. congruence.
    + intros _ l' Hl'. rewrite list_lookup_insert_ne by (fold n in Hl'; lia).
      apply lookup_app_l. exact Hl'.
Qed.

End TagStore.

(** After [ensure_tagger] and [store_tag], the user is a tagger, the tag
    reads as the stored value, and doing both again changes nothing. *)
Lemma touch_then_read (self : Image) (u tag : string) (v : pyval) (h : heap) :
  wf_taggers h (taggers_ref self) = true ->
  exists (h1 : heap) (ks : list string),
    (ensure_tagger self u ;;; store_tag self u tag v) h = (Ok tt, h1)
    /\ get_taggers self h1 = (Ok ks, h1)
    /\ key_in u ks = true
    /\ read_tag self u tag h1 = (Ok v, h1)
    /\ (ensure_tagger self u ;;; store_tag self u tag v) h1 = (Ok tt, h1).
Proof.
  intros Hwf.
  destruct (touch_ok self u tag v h Hwf)
    as (h1 & d & d2 & l & i & Hrun & _ & Hd2 & Hu & Hi & _).
  exists h1, (dict_keys d2). repeat split.
  - exact Hrun.
  - unfold get_taggers, read_outer, bind, ret. rewrite Hd2. reflexivity.
  - eapply dict_get_key_in; exact Hu.
  - eapply read_tag_ok; eauto. apply dict_get_set_eq.
  - unfold bind at 1.
    rewrite (ensure_tagger_present self u h1 d2 Hd2 (dict_get_key_in u l d2 Hu)).
    rewrite (store_tag_ok self u tag v h1 d2 l _ Hd2 Hu Hi).
    rewrite dict_set_set_eq, (list_insert_id _ _ _ Hi), heap_eta. reflexivity.
Qed.

(** Where the coercion of [add_tag] and the normalization of the
    specification part: on the spellings of false, and nowhere else. *)
Lemma coerce_against_spec (content : string) :
  coerce_content content
  = if String.eqb (PyStr.lower content) "false" then VStr content
    else spec_normalize content.
Proof.
  unfold spec_normalize.
  destruct (String.eqb_spec (PyStr.lower content) "false") as [Ef|_].
  - apply coerce_false_any_case. exact Ef.
  - destruct (String.eqb_spec (PyStr.lower content) "true") as [Et|Nt].
    + apply coerce_true_any_case. exact Et.
    + destruct (PyStr.fullmatch_digits content) eqn:D.
      * apply coerce_digits. exact D.
      * apply coerce_other; assumption.
Qed.

(** C6: on a store that describes Python objects, [add_tag] (and
    [update_tag], which forwards to it) returns, the user is then a key of
    the taggers dictionary, and a second call with the same arguments
    leaves the store as the first call left it.  The read of
    [taggers[u][t]] yields the normalization of the specification for every
    content but the spellings of false: for these it yields the content as
    text, where the specification has the boolean false. *)
Theorem add_tag_read_against_normalize
  (self : Image) (u tag content : string) (h : heap) :
  wf_taggers h (taggers_ref self) = true ->
  exists (h1 : heap) (ks : list string),
    add_tag self u tag content h = (Ok tt, h1)
    /\ update_tag self u tag content h = (Ok tt, h1)
    /\ get_taggers self h1 = (Ok ks, h1)
    /\ key_in u ks = true
    /\ read_tag self u tag h1
       = (Ok (if String.eqb (PyStr.lower content) "false" then VStr content
              else spec_normalize content), h1)
    /\ (String.eqb (PyStr.lower content) "false" = true ->
        spec_normalize content = VBool false)
    /\ add_tag self u tag content h1 = (Ok tt, h1).
Proof.
  intros Hwf.
  destruct (touch_then_read self u tag (coerce_content content) h Hwf)
    as (h1 & ks & H1 & H2 & H3 & H4 & H5).
  exists h1, ks. rewrite <- coerce_against_spec.
  unfold update_tag, add_tag. repeat split; auto.
  intros E. unfold spec_normalize. apply String.eqb_eq in E. rewrite E.
  reflexivity.
Qed.

Lemma add_tag_read_against_normalize_witness :
  wf_taggers module_init (taggers_ref img_a) = true
  /\ exists (h1 : heap) (ks : list string),
       add_tag img_a "A" "damage" "false" module_init = (Ok tt, h1)
       /\ update_tag img_a "A" "damage" "false" module_init = (Ok tt, h1)
       /\ get_taggers img_a h1 = (Ok ks, h1)
       /\ key_in "A" ks = true
       /\ read_tag img_a "A" "damage" h1
          = (Ok (if String.eqb (PyStr.lower "false") "false" then VStr "false"
                 else spec_normalize "false"), h1)
       /\ (String.eqb (PyStr.lower "false") "false" = true ->
           spec_normalize "false" = VBool false)
       /\ add_tag img_a "A" "damage" "false" h1 = (Ok tt, h1).
Proof.
  split; [reflexivity|].
  apply (add_tag_read_against_normalize img_a "A" "damage" "false" module_init).
  reflexivity.
Defined.

(** C7: on a store that describes Python objects, [remove_tag] returns;
    afterwards the user is a key of the taggers dictionary and reading
    [taggers[u][t]] yields [None]: the entry is there, it is not deleted,
    whether or not the tag was ever added. *)
Theorem remove_tag_leaves_none (self : Image) (u tag : string) (h : heap) :
  wf_taggers h (taggers_ref self) = true ->
  exists (h1 : heap) (ks : list string),
    remove_tag self u tag h = (Ok tt, h1)
    /\ get_taggers self h1 = (Ok ks, h1)
    /\ key_in u ks = true
    /\ read_tag self u tag h1 = (Ok VNone, h1).
Proof.
  intros Hwf.
  destruct (touch_then_read self u tag VNone h Hwf)
    as (h1 & ks & H1 & H2 & H3 & H4 & _).
  exists h1, ks. unfold remove_tag. auto.
Qed.

Lemma remove_tag_leaves_none_witness :
  wf_taggers module_init (taggers_ref img_a) = true
  /\ exists (h1 : heap) (ks : list string),
       remove_tag img_a "A" "damage" module_init = (Ok tt, h1)
       /\ get_taggers img_a h1 = (Ok ks, h1)
       /\ key_in "A" ks = true
       /\ read_tag img_a "A" "damage" h1 = (Ok VNone, h1).
Proof.
  split; [reflexivity|].
  apply (remove_tag_leaves_none img_a "A" "damage" module_init).
  reflexivity.
Defined.

Lemma mutate_touch (self : Image) (m : mutation) :
  exists (tag : string) (v : pyval),
    mutate self m
    = (ensure_tagger self (mutation_user m) ;;; store_tag self (mutation_user m) tag v).
Proof.
  destruct m as [u tag content | u tag]; simpl.
  - exists tag, (coerce_content content). reflexivity.
  - exists tag, VNone. reflexivity.
Qed.

(** C5: two images made one after the other read [skippers] and [taggers]
    at the same two objects, those of the class; making an image leaves the
    store as it is; and after [add_tag] or [remove_tag] on the first image
    for user [u], [get_taggers] of the second one, and of an image made
    after the change, has [u]. *)
Theorem containers_shared_by_all_images
  (o1 s1 o2 s2 o3 s3 : string) (m : mutation) (h : heap) :
  wf_taggers h cls_taggers = true ->
  exists (a b c : Image) (h1 : heap) (kb kc : list string),
    Image_init o1 s1 h = (Ok a, h)
    /\ Image_init o2 s2 h = (Ok b, h)
    /\ skippers_ref a = skippers_ref b
    /\ taggers_ref a = taggers_ref b
    /\ mutate a m h = (Ok tt, h1)
    /\ Image_init o3 s3 h1 = (Ok c, h1)
    /\ get_taggers b h1 = (Ok kb, h1)
    /\ key_in (mutation_user m) kb = true
    /\ get_taggers c h1 = (Ok kc, h1)
    /\ key_in (mutation_user m) kc = true.
Proof.
  intros Hwf.
  set (a := mkImage o1 s1 None None).
  destruct (mutate_touch a m) as (tag & v & Hm).
  destruct (touch_then_read a (mutation_user m) tag v h Hwf)
    as (h1 & ks & H1 & H2 & H3 & _).
  exists a, (mkImage o2 s2 None None), (mkImage o3 s3 None None), h1, ks, ks.
  rewrite Hm. repeat split; auto.
Qed.

Lemma containers_shared_by_all_images_witness :
  wf_taggers module_init cls_taggers = true
  /\ exists (a b c : Image) (h1 : heap) (kb kc : list string),
       Image_init "a.jpg" "a_small.jpg" module_init = (Ok a, module_init)
       /\ Image_init "b.jpg" "b_small.jpg" module_init = (Ok b, module_init)
       /\ skippers_ref a = skippers_ref b
       /\ taggers_ref a = taggers_ref b
       /\ mutate a (Add "A" "damage" "true") module_init = (Ok tt, h1)
       /\ Image_init "c.jpg" "c_small.jpg" h1 = (Ok c, h1)
       /\ get_taggers b h1 = (Ok kb, h1)
       /\ key_in (mutation_user (Add "A" "damage" "true")) kb = true
       /\ get_taggers c h1 = (Ok kc, h1)
       /\ key_in (mutation_user (Add "A" "damage" "true")) kc = true.
Proof.
  split; [reflexivity|].
  apply (containers_shared_by_all_images "a.jpg" "a_small.jpg" "b.jpg"
           "b_small.jpg" "c.jpg" "c_small.jpg" (Add "A" "damage" "true")
           module_init).
  reflexivity.
Defined.

(** ** The summary and the consensus *)

Lemma unpack_pair_is_str (item tag : string) (value : pyval) :
  unpack_pair item = Ok (tag, value) -> is_str value = true.
Proof.
  unfold unpack_pair.
  destruct (PyStr.chars item) as [|a [|b [|c r]]]; try discriminate.
  intros E. injection E as _ <-. reflexivity.
Qed.

(** The inner loop never adds to [tag_totals]: each item is a key, its
    second character is a [str], and the body skips it; or the key does not
    have two characters and unpacking raises. *)
Lemma for_items_cases (items : list string) (tag_totals : totals) :
  for_items items tag_totals = Ok tag_totals
  \/ for_items items tag_totals = Raise ValueError.
Proof.
  induction items as [|item rest IH]; simpl; [left; reflexivity|].
  destruct (unpack_pair item) as [[tag value]|e|] eqn:E.
  - unfold sum_body. rewrite (unpack_pair_is_str item tag value E). exact IH.
  - right. unfold unpack_pair in E.
    destruct (PyStr.chars item) as [|a [|b [|c r]]]; congruence.
  - unfold unpack_pair in E.
    destruct (PyStr.chars item) as [|a [|b [|c r]]]; discriminate.
Qed.

Inductive sum_result (tag_totals : totals) : outcome totals -> Prop :=
| sum_same : sum_result tag_totals (Ok tag_totals)
| sum_value_error : sum_result tag_totals (Raise ValueError)
| sum_key_error : sum_result tag_totals (Raise KeyError)
| sum_dangling : sum_result tag_totals Dangling.

Lemma for_users_cases (self : Image) (users : list string)
  (tag_totals : totals) (h : heap) :
  snd (for_users self users tag_totals h) = h
  /\ sum_result tag_totals (fst (for_users self users tag_totals h)).
Proof.
  induction users as [|u rest IH]; simpl.
  - split; [reflexivity | constructor].
  - cbv beta delta [bind outer_getitem read_outer read_inner lift ret raise].
    destruct (outers h !! taggers_ref self) as [d|]; simpl;
      [|split; [reflexivity | constructor]].
    destruct (dict_get u d) as [l|]; simpl;
      [|split; [reflexivity | constructor]].
    destruct (inners h !! l) as [i|]; simpl;
      [|split; [reflexivity | constructor]].
    destruct (for_items_cases (dict_keys i) tag_totals) as [E|E]; rewrite E.
    + destruct (for_users self rest tag_totals h) as [o h'] eqn:F.
      simpl in IH. exact IH.
    + split; [reflexivity | constructor].
Qed.

(** [_sum_tag_values_by_users] leaves the store as it is, and when it
    returns it returns the empty dictionary. *)
Lemma sum_tag_values_cases (self : Image) (h : heap) :
  snd (_sum_tag_values_by_users self h) = h
  /\ sum_result [] (fst (_sum_tag_values_by_users self h)).
Proof.
  unfold _sum_tag_values_by_users, get_taggers, bind, read_outer, ret.
  destruct (outers h !! taggers_ref self) as [d|]; simpl.
  - apply for_users_cases.
  - split; [reflexivity | constructor].
Qed.

Lemma sum_tag_values_empty (self : Image) (h : heap) (tag_totals : totals) :
  fst (_sum_tag_values_by_users self h) = Ok tag_totals -> tag_totals = [].
Proof.
  intros E. destruct (sum_tag_values_cases self h) as [_ H].
  rewrite E in H. inversion H. reflexivity.
Qed.

Inductive consensus_result : outcome bool -> Prop :=
| consensus_not_enough : consensus_result (Raise NotEnoughTaggersError)
| consensus_true : consensus_result (Ok true)
| consensus_value_error : consensus_result (Raise ValueError)
| consensus_key_error : consensus_result (Raise KeyError)
| consensus_dangling : consensus_result Dangling.

Lemma all_user_tags_equal_unfold (self : Image) (h : heap) :
  all_user_tags_equal self h =
  match outers h !! taggers_ref self with
  | None => (Dangling, h)
  | Some d =>
      if (length (dict_keys d) <? 2)%nat then (Raise NotEnoughTaggersError, h)
      else
        match _sum_tag_values_by_users self h with
        | (Ok tag_totals, h') => (for_totals (dict_keys tag_totals) tag_totals, h')
        | (Raise e, h') => (Raise e, h')
        | (Dangling, h') => (Dangling, h')
        end
  end.
Proof.
  unfold all_user_tags_equal, get_taggers.
  cbv beta delta [bind read_outer ret raise lift].
  destruct (outers h !! taggers_ref self) as [d|]; [|reflexivity].
  destruct (length (dict_keys d) <? 2)%nat; reflexivity.
Qed.

Lemma all_user_tags_equal_cases (self : Image) (h : heap) :
  snd (all_user_tags_equal self h) = h
  /\ consensus_result (fst (all_user_tags_equal self h)).
Proof.
  rewrite all_user_tags_equal_unfold.
  destruct (outers h !! taggers_ref self) as [d|]; simpl;
    [|split; [reflexivity | constructor]].
  destruct (length (dict_keys d) <? 2)%nat; simpl;
    [split; [reflexivity | constructor]|].
  destruct (sum_tag_values_cases self h) as [Hs Hr].
  destruct (_sum_tag_values_by_users self h) as [o h']. simpl in Hs, Hr.
  subst h'. inversion Hr; subst; simpl; split; try reflexivity; constructor.
Qed.

(** [all_user_tags_equal] never answers [False]. *)
Lemma all_user_tags_equal_never_false (self : Image) (h : heap) :
  fst (all_user_tags_equal self h) <> Ok false.
Proof.
  intros E. destruct (all_user_tags_equal_cases self h) as [_ H].
  rewrite E in H. inversion H.
Qed.

(** C1, at the scenario of the claim: user A has set "damage" to "true" and
    user B has set "damage" to "false".  [all_user_tags_equal] does not
    return [False]: it raises [ValueError], the loop of
    [_sum_tag_values_by_users] unpacking the key "damage" into two names. *)
Theorem damage_true_false_raises :
  damage_true_false
  = mkHeap [[]] [[("A", 0); ("B", 1)]]
      [[("damage", VBool true)]; [("damage", VStr "false")]]
  /\ all_user_tags_equal img_a damage_true_false
     = (Raise ValueError, damage_true_false).
Proof. split; reflexivity. Qed.

(** C3, at one tagger with one boolean tag: [_sum_tag_values_by_users]
    raises [ValueError] when the tag is "damage", and returns the empty
    dictionary, with no count for the value [True], when the tag is "ok". *)
Theorem sum_tag_values_counts_nothing :
  fst (_sum_tag_values_by_users img_a
         (exec (add_tag img_a "A" "damage" "true") module_init))
  = Raise ValueError
  /\ exec (add_tag img_a "A" "ok" "true") module_init
     = mkHeap [[]] [[("A", 0)]] [[("ok", VBool true)]]
  /\ fst (_sum_tag_values_by_users img_a
            (exec (add_tag img_a "A" "ok" "true") module_init))
     = Ok [].
Proof. repeat split; reflexivity. Qed.

(** C4: [all_user_tags_equal] raises [NotEnoughTaggersError] exactly when
    the taggers dictionary has fewer than two keys, and it leaves the store
    as it is. *)
Theorem not_enough_taggers_iff (self : Image) (h : heap) (d : dict loc) :
  outers h !! taggers_ref self = Some d ->
  (fst (all_user_tags_equal self h) = Raise NotEnoughTaggersError
   <-> length (dict_keys d) < 2)
  /\ snd (all_user_tags_equal self h) = h.
Proof.
  intros Hd. split; [|apply all_user_tags_equal_cases].
  rewrite all_user_tags_equal_unfold, Hd.
  destruct (Nat.ltb_spec (length (dict_keys d)) 2) as [Hlt|Hge]; simpl.
  - split; auto.
  - split; [|lia]. intros E. exfalso. revert E.
    destruct (sum_tag_values_cases self h) as [_ Hr].
    destruct (_sum_tag_values_by_users self h) as [o h']. simpl in Hr.
    inversion Hr; subst; simpl; discriminate.
Qed.

Lemma not_enough_taggers_iff_witness :
  outers module_init !! taggers_ref img_a = Some []
  /\ (fst (all_user_tags_equal img_a module_init) = Raise NotEnoughTaggersError
      <-> length (dict_keys ([] : dict loc)) < 2)
  /\ snd (all_user_tags_equal img_a module_init) = module_init.
Proof.
  split; [reflexivity|].
  apply (not_enough_taggers_iff img_a module_init []). reflexivity.
Defined.

(** ** save *)

Lemma save_ok (self : Image) (h : heap) (d : dict loc) (s0 : list string) :
  outers h !! taggers_ref self = Some d ->
  sets h !! skippers_ref self = Some s0 ->
  save self h =
  (Ok (mkImage (original_size_path self) (small_size_path self)
         (Some (length (sets h))) (Some (length (outers h)))),
   mkHeap (sets h ++ [s0]) (outers h ++ [d]) (inners h)).
Proof.
  intros Hd Hs. unfold save, copy_set, copy_outer.
  cbv beta delta [bind read_set read_outer ret].
  rewrite Hs. simpl. rewrite Hd. reflexivity.
Qed.

Lemma get_taggers_ok (self : Image) (h : heap) (d : dict loc) :
  outers h !! taggers_ref self = Some d ->
  get_taggers self h = (Ok (dict_keys d), h).
Proof.
  intros Hd. unfold get_taggers. cbv beta delta [bind read_outer ret].
  rewrite Hd. reflexivity.
Qed.

Lemma deref_all_ext (h h' : heap) (d : dict loc) :
  forallb (fun kv => (snd kv <? length (inners h))%nat) d = true ->
  (forall l, l < length (inners h) -> inners h' !! l = inners h !! l) ->
  deref_all h' d = deref_all h d.
Proof.
  intros Hb Hsame. induction d as [|[k l] r IH]; simpl; [reflexivity|].
  simpl in Hb. apply andb_prop in Hb as [Hl Hr]. apply Nat.ltb_lt in Hl.
  rewrite (Hsame l Hl), (IH Hr). reflexivity.
Qed.

(** C8, as stated, fails: user A tags an image, the image is saved, and user
    A's tag is removed through another image; what [save] returned showed
    [True] under "damage" and now shows [None]. *)
Lemma save_snapshot_leaks : ~ save_isolates_snapshot.
Proof.
  intros H.
  specialize (H img_a img_b (Remove "A" "damage")
                (exec (add_tag img_a "A" "damage" "true") module_init)
                (mkHeap [[]; []] [[("A", 0)]; [("A", 0)]] [[("damage", VBool true)]])
                (mkImage "a.jpg" "a_small.jpg" (Some 1) (Some 1))
                eq_refl eq_refl eq_refl).
  vm_compute in H. discriminate H.
Qed.

(** ** The storm catalogue *)

Section CollectorFacts.

Context {Storm regex : Type}.
Variable mkStorm : string -> string -> string -> string -> Storm.
Variable re_compile : string -> option regex.
Variable re_search : regex -> string -> bool.
Variable findall_index : string -> list (string * string * string * string).

Local Abbreviation generate :=
  (generate_storm_list Storm mkStorm regex re_compile re_search findall_index).
Local Abbreviation get :=
  (get_storm_list Storm mkStorm regex re_compile re_search findall_index).






End CollectorFacts.

(** ** The tar fetcher *)

Section TarFacts.

Context {world : Type}.
Variable isfile : string -> world -> bool.
Variable print : string -> world -> world.
Variable retrieve : string -> string -> world -> outcome unit * world.

(** Without [overwrite], a file that is not there is retrieved. *)
Lemma download_url_fetches_missing (self : Tar) (dir : string) (w : world) :
  isfile (dir ++ tar_file_name self ++ ".tar") w = false ->
  download_url world isfile print retrieve self dir false w
  = (fst (retrieve (tar_url self) (dir ++ tar_file_name self ++ ".tar") w),
     set_tar_file_path self (dir ++ tar_file_name self ++ ".tar"),
     snd (retrieve (tar_url self) (dir ++ tar_file_name self ++ ".tar") w)).
Proof.
  intros H. unfold download_url. simpl. rewrite H.
  destruct (retrieve _ _ w); reflexivity.
Qed.

(** C10: with [overwrite] true, [download_url] returns, assigns
    [tar_file_path], and leaves the world as it is: no test of the file, no
    line printed, nothing retrieved, whatever these three operations are. *)
Theorem download_url_overwrite_fetches_nothing
  (self : Tar) (dir : string) (w : world) :
  download_url world isfile print retrieve self dir true w
  = (Ok tt, set_tar_file_path self (dir ++ tar_file_name self ++ ".tar"), w).
Proof. reflexivity. Qed.

End TarFacts.

(** ** More on the coercion of add_tag *)

Lemma is_digit_value (c : ascii) :
  PyStr.is_digit c = true -> (0 <= PyStr.digit_value c <= 9)%Z.
Proof.
  unfold PyStr.is_digit, PyStr.digit_value. intros H.
  apply andb_prop in H as [H1 H2].
  apply N.leb_le in H1. apply N.leb_le in H2. lia.
Qed.

Lemma int_from_nonneg (s : string) (acc : Z) :
  PyStr.all_digits s = true -> (0 <= acc)%Z -> (0 <= PyStr.int_from acc s)%Z.
Proof.
  revert acc. induction s as [|c r IH]; simpl; intros acc H Hacc; [exact Hacc|].
  apply andb_prop in H as [Hc Hr]. apply IH; [exact Hr|].
  pose proof (is_digit_value c Hc). lia.
Qed.

Lemma all_digits_app (p q : string) :
  PyStr.all_digits (p ++ q) = PyStr.all_digits p && PyStr.all_digits q.
Proof.
  induction p as [|c r IH]; simpl; [reflexivity|].
  rewrite IH. apply andb_assoc.
Qed.

Lemma int_from_app (p q : string) (acc : Z) :
  PyStr.int_from acc (p ++ q) = PyStr.int_from (PyStr.int_from acc p) q.
Proof.
  revert acc. induction p as [|c r IH]; simpl; intros acc; [reflexivity|].
  apply IH.
Qed.

Lemma string_app_snoc (p s : string) (c : ascii) :
  (p ++ String c "") ++ s = p ++ String c s.
Proof.
  induction p as [|a r IH]; [reflexivity|].
  change (String a ((r ++ String c "") ++ s) = String a (r ++ String c s)).
  f_equal. exact IH.
Qed.

Lemma string_app_nil (p : string) : p ++ "" = p.
Proof.
  induction p as [|a r IH]; [reflexivity|].
  change (String a (r ++ "") = String a r). f_equal. exact IH.
Qed.

Lemma string_length_snoc (p : string) (c : ascii) :
  String.length (p ++ String c "") = S (String.length p).
Proof.
  induction p as [|a r IH]; [reflexivity|].
  change (S (String.length (r ++ String c "")) = S (S (String.length r))).
  f_equal. exact IH.
Qed.

Lemma pretty_N_char_digit (y : N) :
  (y < 10)%N ->
  PyStr.is_digit (pretty_N_char y) = true
  /\ PyStr.digit_value (pretty_N_char y) = Z.of_N y.
Proof.
  intros H.
  assert (y = 0 \/ y = 1 \/ y = 2 \/ y = 3 \/ y = 4 \/ y = 5 \/ y = 6
          \/ y = 7 \/ y = 8 \/ y = 9)%N as E by lia.
  repeat (destruct E as [-> | E]; [split; reflexivity|]).
  subst y. split; reflexivity.
Qed.

(** What [str] of a positive integer is: decimal digits, one at least, that
    [int] reads back as the integer. *)
Lemma pretty_N_go_digits (x : N) (s : string) :
  exists p : string,
    pretty_N_go x s = p ++ s
    /\ PyStr.all_digits p = true
    /\ ((0 < x)%N -> p <> "")
    /\ forall acc : Z,
         PyStr.int_from acc p
         = (acc * 10 ^ Z.of_nat (String.length p) + Z.of_N x)%Z.
Proof.
  revert s. induction (N.lt_wf_0 x) as [x _ IH]. intros s.
  destruct (N.eq_dec x 0%N) as [->|Hx].
  - exists "". rewrite pretty_N_go_0. repeat split; try reflexivity.
    + intros H. lia.
    + intros acc. simpl. lia.
  - assert (Hpos : (0 < x)%N) by lia.
    rewrite (pretty_N_go_step x s Hpos).
    destruct (IH (x `div` 10)%N (N.div_lt x 10 Hpos eq_refl)
                (String (pretty_N_char (x `mod` 10)) s))
      as (p & Hp & Hd & _ & Hint).
    destruct (pretty_N_char_digit (x `mod` 10)%N) as [Hc Hv];
      [apply N.mod_lt; lia|].
    exists (p ++ String (pretty_N_char (x `mod` 10)) "").
    repeat split.
    + rewrite Hp, string_app_snoc. reflexivity.
    + rewrite all_digits_app, Hd. simpl. rewrite Hc. reflexivity.
    + intros _. destruct p; discriminate.
    + intros acc. rewrite int_from_app, Hint, string_length_snoc. simpl.
      rewrite Hv, Nat2Z.inj_succ, Z.pow_succ_r by lia.
      pose proof (N.div_mod x 10 ltac:(lia)) as Hdm.
      rewrite N2Z.inj_mod. rewrite N2Z.inj_div in *.
      pose proof (Z.div_mod (Z.of_N x) 10 ltac:(lia)) as Hz.
      change (Z.of_N 10) with 10%Z. lia.
Qed.

Lemma coerce_pretty (z : Z) : (0 <= z)%Z -> coerce_content (pretty z) = VInt z.
Proof.
  intros Hz. destruct z as [|q|q]; [reflexivity | | lia].
  unfold pretty, pretty_Z, pretty, pretty_positive, pretty, pretty_N.
  destruct (decide (N.pos q = 0%N)) as [E|_]; [discriminate E|].
  destruct (pretty_N_go_digits (N.pos q) "") as (p & Hp & Hd & Hne & Hint).
  rewrite Hp, string_app_nil.
  assert (Hf : PyStr.fullmatch_digits p = true).
  { destruct p; [exfalso; apply Hne; [lia | reflexivity] | exact Hd]. }
  rewrite (coerce_digits p Hf). unfold PyStr.int. rewrite Hint. f_equal.
Qed.

Lemma coerce_content_cases (content : string) :
  match coerce_content content with
  | VBool b => b = true /\ PyStr.lower content = "true"
  | VInt z => (0 <= z)%Z /\ PyStr.fullmatch_digits content = true
  | VStr s => s = content
  | VNone => False
  end.
Proof.
  unfold coerce_content. rewrite py_or_true_false.
  destruct (String.eqb_spec (PyStr.lower content) "true") as [E|_].
  - split; [|exact E]. destruct content; [discriminate E | reflexivity].
  - destruct (PyStr.fullmatch_digits content) eqn:D; [|reflexivity].
    split; [|reflexivity]. apply int_from_nonneg; [|lia].
    destruct content; [discriminate D | exact D].
Qed.

(** X1: the value [add_tag] stores is [True] when the content in lower case
    is "true", else the integer the content denotes when it is made of
    digits, else the content itself; so it is never [False] and never
    [None], and a stored integer is not negative. *)
Theorem coerce_content_shape (content : string) :
  coerce_content content
  = (if String.eqb (PyStr.lower content) "true" then VBool true
     else if PyStr.fullmatch_digits content then VInt (PyStr.int content)
     else VStr content)
  /\ match coerce_content content with
     | VBool b => b = true /\ PyStr.lower content = "true"
     | VInt z => (0 <= z)%Z /\ PyStr.fullmatch_digits content = true
     | VStr s => s = content
     | VNone => False
     end.
Proof.
  split; [|exact (coerce_content_cases content)].
  destruct (String.eqb_spec (PyStr.lower content) "true") as [Et|Nt].
  - apply coerce_true_any_case. exact Et.
  - destruct (PyStr.fullmatch_digits content) eqn:D.
    + apply coerce_digits. exact D.
    + apply coerce_other; assumption.
Qed.

(** X2: writing a stored value with [str] and coercing it again gives the
    stored value. *)
Theorem coerce_str_round_trip (content : string) :
  coerce_content (py_str (coerce_content content)) = coerce_content content.
Proof.
  pose proof (coerce_content_cases content) as H.
  destruct (coerce_content content) as [s|b|z|] eqn:E; simpl.
  - subst s. exact E.
  - destruct H as [-> _]. reflexivity.
  - destruct H as [Hz _]. apply coerce_pretty. exact Hz.
  - contradiction.
Qed.

(** ** More on dictionaries *)

Local Open Scope list_scope.

Section DictMore.

Context {V : Type}.
Implicit Types (d : dict V) (k : string) (v : V).

Lemma dict_get_set_ne k k' v d :
  k <> k' -> dict_get k' (dict_set k v d) = dict_get k' d.
Proof.
  intros Hne. induction d as [|[k0 v0] r IH]; simpl.
  - destruct (String.eqb_spec k' k); [congruence | reflexivity].
  - destruct (String.eqb_spec k k0) as [->|Hk]; simpl.
    + destruct (String.eqb_spec k' k0); [congruence | reflexivity].
    + rewrite IH. reflexivity.
Qed.

Lemma dict_set_overwrite k v1 v2 d :
  dict_set k v2 (dict_set k v1 d) = dict_set k v2 d.
Proof.
  induction d as [|[k0 v0] r IH]; simpl.
  - rewrite String.eqb_refl. reflexivity.
  - destruct (String.eqb k k0) eqn:E; simpl; rewrite E; [reflexivity|].
    rewrite IH. reflexivity.
Qed.

Lemma dict_keys_set_present k v d :
  key_in k (dict_keys d) = true -> dict_keys (dict_set k v d) = dict_keys d.
Proof.
  induction d as [|[k0 v0] r IH]; simpl; [discriminate|].
  destruct (String.eqb k k0); simpl; [reflexivity|].
  intros H. rewrite (IH H). reflexivity.
Qed.

Lemma dict_set_absent k v d :
  key_in k (dict_keys d) = false -> dict_set k v d = d ++ [(k, v)].
Proof.
  induction d as [|[k0 v0] r IH]; simpl; [reflexivity|].
  destruct (String.eqb k k0); [discriminate|].
  intros H. rewrite (IH H). reflexivity.
Qed.

End DictMore.

Lemma key_in_app (k : string) (ks ks' : list string) :
  key_in k (ks ++ ks') = key_in k ks || key_in k ks'.
Proof.
  induction ks as [|k0 r IH]; simpl; [reflexivity|].
  destruct (String.eqb k k0); [reflexivity | exact IH].
Qed.

Lemma unique_keys_snoc (k : string) (ks : list string) :
  unique_keys ks = true -> key_in k ks = false -> unique_keys (ks ++ [k]) = true.
Proof.
  induction ks as [|k0 r IH]; simpl; [reflexivity|].
  intros H Hk. apply andb_prop in H as [H0 Hr].
  destruct (String.eqb_spec k k0) as [->|Hne]; [discriminate|].
  rewrite (IH Hr Hk), key_in_app, andb_true_r. simpl.
  destruct (String.eqb_spec k0 k) as [E|_]; [congruence|].
  rewrite orb_false_r. exact H0.
Qed.

Lemma distinct_locs_snoc (n : nat) (ls : list nat) :
  distinct_locs ls = true ->
  forallb (fun l => (l <? n)%nat) ls = true ->
  distinct_locs (ls ++ [n]) = true.
Proof.
  induction ls as [|l r IH]; simpl; [reflexivity|].
  intros H Hb. apply andb_prop in H as [H0 Hr]. apply andb_prop in Hb as [Hl Hb].
  rewrite (IH Hr Hb), andb_true_r, existsb_app. simpl.
  apply Nat.ltb_lt in Hl.
  destruct (Nat.eqb_spec l n) as [E|_]; [lia|].
  rewrite !orb_false_r. exact H0.
Qed.

Lemma forallb_map_snd (f : nat -> bool) (d : dict loc) :
  forallb f (map snd d) = forallb (fun kv => f (snd kv)) d.
Proof. induction d as [|kv r IH]; simpl; [|rewrite IH]; reflexivity. Qed.

(** Under pairwise different locations, a location stands under one key. *)
Lemma dict_get_inj (k k' : string) (l : nat) (d : dict loc) :
  distinct_locs (map snd d) = true ->
  dict_get k d = Some l -> dict_get k' d = Some l -> k = k'.
Proof.
  induction d as [|[k0 l0] r IH]; simpl; [discriminate|].
  intros H G G'. apply andb_prop in H as [H0 Hr].
  assert (Hin : forall q, dict_get q r = Some l0 -> False).
  { intros q Hq. apply negb_true_iff in H0.
    assert (existsb (Nat.eqb l0) (map snd r) = true); [|congruence].
    clear - Hq. induction r as [|[k1 l1] r IH]; simpl in *; [discriminate|].
    destruct (String.eqb q k1).
    - injection Hq as ->. rewrite Nat.eqb_refl. reflexivity.
    - rewrite (IH Hq). apply orb_true_r. }
  destruct (String.eqb_spec k k0) as [->|Hk];
    destruct (String.eqb_spec k' k0) as [->|Hk']; auto.
  - injection G as <-. exfalso. eapply Hin; exact G'.
  - injection G' as <-. exfalso. eapply Hin; exact G.
Qed.

(** ** More on the tag store *)

Lemma mutate_eq (self : Image) (m : mutation) :
  mutate self m
  = (ensure_tagger self (mutation_user m) ;;;
     store_tag self (mutation_user m) (mutation_tag m) (mutation_value m)).
Proof. destruct m; reflexivity. Qed.

Lemma touch_present_eq (self : Image) (u tag : string) (v : pyval) (h : heap)
  (d : dict loc) (l : loc) (i : dict pyval) :
  outers h !! taggers_ref self = Some d -> dict_get u d = Some l ->
  inners h !! l = Some i ->
  (ensure_tagger self u ;;; store_tag self u tag v) h
  = (Ok tt, mkHeap (sets h) (outers h) (<[l := dict_set tag v i]> (inners h))).
Proof.
  intros Hd Hu Hi. unfold bind at 1.
  rewrite (ensure_tagger_present self u h d Hd (dict_get_key_in u l d Hu)).
  apply (store_tag_ok self u tag v h d l i Hd Hu Hi).
Qed.

Lemma touch_absent_eq (self : Image) (u tag : string) (v : pyval) (h : heap)
  (d : dict loc) :
  outers h !! taggers_ref self = Some d -> key_in u (dict_keys d) = false ->
  (ensure_tagger self u ;;; store_tag self u tag v) h
  = (Ok tt,
     mkHeap (sets h)
       (<[taggers_ref self := d ++ [(u, length (inners h))]]> (outers h))
       (inners h ++ [[(tag, v)]])).
Proof.
  intros Hd Hk. unfold bind at 1.
  rewrite (ensure_tagger_absent self u h d Hd Hk).
  rewrite (dict_set_absent u (length (inners h)) d Hk).
  assert (Ht : taggers_ref self < length (outers h))
    by (eapply lookup_lt_Some; exact Hd).
  set (n := length (inners h)).
  set (h1 := mkHeap (sets h) (<[taggers_ref self := d ++ [(u, n)]]> (outers h))
               (inners h ++ [[]])).
  assert (Hd1 : outers h1 !! taggers_ref self = Some (d ++ [(u, n)]))
    by (apply list_lookup_insert_eq; exact Ht).
  assert (Hu1 : dict_get u (d ++ [(u, n)]) = Some n).
  { rewrite <- (dict_set_absent u n d Hk). apply dict_get_set_eq. }
  assert (Hi1 : inners h1 !! n = Some [])
    by (apply list_lookup_middle; reflexivity).
  rewrite (store_tag_ok self u tag v h1 _ n [] Hd1 Hu1 Hi1).
  simpl. f_equal. f_equal.
  rewrite insert_app_r_alt by (fold n; lia). fold n.
  rewrite Nat.sub_diag. reflexivity.
Qed.

Lemma wf_taggers_get (h : heap) (t : loc) (d : dict loc) (u : string) (l : loc) :
  wf_taggers h t = true -> outers h !! t = Some d -> dict_get u d = Some l ->
  exists i, inners h !! l = Some i.
Proof.
  unfold wf_taggers. intros Hwf Hd Hu. rewrite Hd in Hwf.
  pose proof (forallb_snd_get (fun x => (x <? length (inners h))%nat) u l d Hwf Hu) as Hlt.
  apply Nat.ltb_lt in Hlt. apply lookup_lt_is_Some_2 in Hlt as [i Hi]. eauto.
Qed.

Lemma wf_taggers_outer (h : heap) (t : loc) :
  wf_taggers h t = true -> exists d, outers h !! t = Some d.
Proof.
  unfold wf_taggers. destruct (outers h !! t) as [d|]; [eauto | discriminate].
Qed.

(** The two ways a mutation runs on a store that describes Python objects:
    the user has a dictionary already, which is updated in place; or a new
    dictionary is made for the user, who comes last in the taggers. *)
Lemma mutate_run (self : Image) (m : mutation) (h : heap) :
  wf_taggers h (taggers_ref self) = true ->
  exists d : dict loc,
    outers h !! taggers_ref self = Some d
    /\ ((exists (l : loc) (i : dict pyval),
           dict_get (mutation_user m) d = Some l
           /\ inners h !! l = Some i
           /\ mutate self m h
              = (Ok tt,
                 mkHeap (sets h) (outers h)
                   (<[l := dict_set (mutation_tag m) (mutation_value m) i]>
                      (inners h))))
        \/ (key_in (mutation_user m) (dict_keys d) = false
            /\ mutate self m h
               = (Ok tt,
                  mkHeap (sets h)
                    (<[taggers_ref self :=
                         d ++ [(mutation_user m, length (inners h))]]>
                       (outers h))
                    (inners h ++ [[(mutation_tag m, mutation_value m)]])))).
Proof.
  intros Hwf. destruct (wf_taggers_outer h _ Hwf) as [d Hd].
  exists d. split; [exact Hd|]. rewrite mutate_eq.
  destruct (key_in (mutation_user m) (dict_keys d)) eqn:Hk.
  - left. destruct (key_in_true_get _ d Hk) as [l Hl].
    destruct (wf_taggers_get h _ d _ l Hwf Hd Hl) as [i Hi].
    exists l, i. repeat split; auto. apply (touch_present_eq self _ _ _ h d l i); auto.
  - right. split; [reflexivity|]. apply touch_absent_eq; auto.
Qed.

(** X3: a later value replaces an earlier one: changing a tag of a user twice
    leaves the store the second change alone would leave. *)
Theorem mutate_overwrites (self : Image) (m1 m2 : mutation) (h : heap) :
  wf_taggers h (taggers_ref self) = true ->
  mutation_user m1 = mutation_user m2 ->
  mutation_tag m1 = mutation_tag m2 ->
  mutate self m2 (exec (mutate self m1) h) = mutate self m2 h.
Proof.
  intros Hwf Hu Ht.
  destruct (mutate_run self m1 h Hwf) as (d & Hd & [(l & i & Hl & Hi & E1) | (Hk & E1)]).
  - destruct (mutate_run self m2 h Hwf) as (d' & Hd' & [(l' & i' & Hl' & Hi' & E2) | (Hk' & _)]).
    + assert (d' = d) by congruence. subst d'. rewrite <- Hu in Hl'.
      assert (l' = l) by congruence. subst l'.
      assert (i' = i) by congruence. subst i'.
      rewrite E2. unfold exec. rewrite E1. simpl.
      rewrite !mutate_eq, <- Hu, <- Ht.
      rewrite (touch_present_eq self _ _ _ _ d l (dict_set (mutation_tag m1) (mutation_value m1) i)).
      * simpl. rewrite list_insert_insert_eq, dict_set_overwrite. reflexivity.
      * exact Hd.
      * exact Hl.
      * simpl. apply list_lookup_insert_eq. eapply lookup_lt_Some; exact Hi.
    + assert (d' = d) by congruence. subst d'. rewrite <- Hu in Hk'.
      rewrite (dict_get_key_in _ l d Hl) in Hk'. discriminate.
  - assert (Ht0 : taggers_ref self < length (outers h))
      by (eapply lookup_lt_Some; exact Hd).
    unfold exec. rewrite E1. simpl. rewrite !mutate_eq, <- Hu, <- Ht.
    rewrite (touch_absent_eq self _ _ _ h d Hd Hk).
    rewrite (touch_present_eq self _ _ _ _
               (d ++ [(mutation_user m1, length (inners h))])
               (length (inners h)) [(mutation_tag m1, mutation_value m1)]).
    + simpl. rewrite String.eqb_refl.
      rewrite insert_app_r_alt by lia. rewrite Nat.sub_diag. reflexivity.
    + simpl. apply list_lookup_insert_eq. exact Ht0.
    + rewrite <- (dict_set_absent _ (length (inners h)) d Hk). apply dict_get_set_eq.
    + simpl. apply list_lookup_middle. reflexivity.
Qed.

Lemma mutate_overwrites_witness :
  wf_taggers module_init (taggers_ref img_a) = true
  /\ mutation_user (Add "A" "damage" "true") = mutation_user (Remove "A" "damage")
  /\ mutation_tag (Add "A" "damage" "true") = mutation_tag (Remove "A" "damage")
  /\ mutate img_a (Remove "A" "damage")
       (exec (mutate img_a (Add "A" "damage" "true")) module_init)
     = mutate img_a (Remove "A" "damage") module_init.
Proof.
  split; [reflexivity|]. split; [reflexivity|]. split; [reflexivity|].
  apply (mutate_overwrites img_a (Add "A" "damage" "true") (Remove "A" "damage")
           module_init); reflexivity.
Defined.

(** X4: after a mutation by user [u], the taggers are the taggers of before,
    in their order, followed by [u] when [u] was not among them. *)
Theorem get_taggers_after_mutate
  (self : Image) (m : mutation) (h : heap) (ks : list string) :
  wf_taggers h (taggers_ref self) = true ->
  get_taggers self h = (Ok ks, h) ->
  fst (get_taggers self (exec (mutate self m) h))
  = Ok (if key_in (mutation_user m) ks then ks else ks ++ [mutation_user m]).
Proof.
  intros Hwf Hks.
  destruct (mutate_run self m h Hwf) as (d & Hd & [(l & i & Hl & Hi & E) | (Hk & E)]);
    rewrite (get_taggers_ok self h d Hd) in Hks; injection Hks as <-;
    unfold exec; rewrite E; simpl.
  - rewrite (dict_get_key_in _ l d Hl).
    erewrite get_taggers_ok by exact Hd. reflexivity.
  - rewrite Hk.
    rewrite (get_taggers_ok self _ (d ++ [(mutation_user m, length (inners h))])).
    + simpl. unfold dict_keys. rewrite (map_app fst). reflexivity.
    + simpl. apply list_lookup_insert_eq. eapply lookup_lt_Some; exact Hd.
Qed.

Lemma get_taggers_after_mutate_witness :
  wf_taggers damage_true_false (taggers_ref img_a) = true
  /\ get_taggers img_a damage_true_false = (Ok ["A"; "B"], damage_true_false)
  /\ fst (get_taggers img_a
            (exec (mutate img_a (Add "C" "damage" "1")) damage_true_false))
     = Ok (if key_in (mutation_user (Add "C" "damage" "1")) ["A"; "B"]
           then ["A"; "B"]
           else ["A"; "B"] ++ [mutation_user (Add "C" "damage" "1")]).
Proof.
  split; [reflexivity|]. split; [reflexivity|].
  apply (get_taggers_after_mutate img_a (Add "C" "damage" "1") damage_true_false);
    reflexivity.
Defined.

Lemma read_tag_eq (self : Image) (u tag : string) (h : heap) (d : dict loc) :
  outers h !! taggers_ref self = Some d ->
  read_tag self u tag h
  = (match dict_get u d with
     | None => Raise KeyError
     | Some l =>
         match inners h !! l with
         | None => Dangling
         | Some i =>
             match dict_get tag i with
             | Some v => Ok v
             | None => Raise KeyError
             end
         end
     end, h).
Proof.
  intros Hd. unfold read_tag, outer_getitem, inner_getitem.
  cbv beta delta [bind read_outer read_inner ret raise]. rewrite Hd.
  destruct (dict_get u d) as [l|]; [|reflexivity].
  destruct (inners h !! l) as [i|]; [|reflexivity].
  destruct (dict_get tag i); reflexivity.
Qed.

(** X5: the store keeps describing Python objects, with different keys and
    different per-user dictionaries, through every mutation. *)
Theorem mutate_keeps_wf_dict (self : Image) (m : mutation) (h : heap) :
  wf_dict h (taggers_ref self) = true ->
  wf_dict (exec (mutate self m) h) (taggers_ref self) = true.
Proof.
  unfold wf_dict. intros H. apply andb_prop in H as [Hwf Hd0].
  destruct (mutate_run self m h Hwf) as (d & Hd & [(l & i & Hl & Hi & E) | (Hk & E)]);
    rewrite Hd in Hd0; apply andb_prop in Hd0 as [Hu Hdis];
    unfold exec; rewrite E; simpl; unfold wf_taggers in *; simpl;
    rewrite Hd in Hwf.
  - rewrite Hd, length_insert, Hwf, Hu, Hdis. reflexivity.
  - assert (Ht : taggers_ref self < length (outers h))
      by (eapply lookup_lt_Some; exact Hd).
    rewrite list_lookup_insert_eq by exact Ht.
    rewrite length_app, forallb_app. simpl.
    rewrite (forallb_bound_le (length (inners h)) (length (inners h) + 1) d
               ltac:(lia) Hwf).
    replace (length (inners h) <? length (inners h) + 1)%nat with true
      by (symmetry; apply Nat.ltb_lt; lia).
    unfold dict_keys in *. rewrite (map_app fst), (map_app snd). simpl.
    rewrite (unique_keys_snoc _ _ Hu Hk).
    rewrite distinct_locs_snoc; [reflexivity | exact Hdis |].
    rewrite forallb_map_snd. exact Hwf.
Qed.

Lemma mutate_keeps_wf_dict_witness :
  wf_dict damage_true_false (taggers_ref img_a) = true
  /\ wf_dict (exec (mutate img_a (Add "C" "damage" "1")) damage_true_false)
       (taggers_ref img_a) = true.
Proof.
  split; [reflexivity|].
  apply (mutate_keeps_wf_dict img_a (Add "C" "damage" "1") damage_true_false).
  reflexivity.
Defined.

(** X6: a mutation changes one tag of one user: every other tag of that user,
    and every tag of every other user, reads as before, a missing one
    raising [KeyError] as before. *)
Theorem mutate_leaves_other_tags
  (self : Image) (m : mutation) (u tag : string) (h : heap) :
  wf_dict h (taggers_ref self) = true ->
  u <> mutation_user m \/ tag <> mutation_tag m ->
  fst (read_tag self u tag (exec (mutate self m) h))
  = fst (read_tag self u tag h).
Proof.
  unfold wf_dict. intros H Hne. apply andb_prop in H as [Hwf Hd0].
  destruct (mutate_run self m h Hwf) as (d & Hd & [(l & i & Hl & Hi & E) | (Hk & E)]);
    rewrite Hd in Hd0; apply andb_prop in Hd0 as [_ Hdis];
    unfold exec; rewrite E; simpl;
    rewrite (read_tag_eq self u tag h d Hd).
  - rewrite (read_tag_eq self u tag _ d) by exact Hd. simpl.
    destruct (dict_get u d) as [l'|] eqn:Hl'; [|reflexivity].
    destruct (Nat.eq_dec l l') as [<-|Hll].
    + assert (u = mutation_user m) by (eapply dict_get_inj; eauto). subst u.
      destruct Hne as [Hne|Hne]; [contradiction|].
      rewrite list_lookup_insert_eq by (eapply lookup_lt_Some; exact Hi).
      rewrite Hi, dict_get_set_ne by congruence. reflexivity.
    + rewrite list_lookup_insert_ne by exact Hll. reflexivity.
  - assert (Ht : taggers_ref self < length (outers h))
      by (eapply lookup_lt_Some; exact Hd).
    rewrite (read_tag_eq self u tag _ (d ++ [(mutation_user m, length (inners h))]))
      by (simpl; apply list_lookup_insert_eq; exact Ht).
    simpl. rewrite <- (dict_set_absent _ (length (inners h)) d Hk).
    destruct (String.eqb_spec u (mutation_user m)) as [->|Hu].
    + destruct Hne as [Hne|Hne]; [contradiction|].
      rewrite dict_get_set_eq, (key_in_false_get _ d Hk).
      rewrite list_lookup_middle by reflexivity. simpl.
      destruct (String.eqb_spec tag (mutation_tag m)); [contradiction | reflexivity].
    + rewrite dict_get_set_ne by congruence.
      destruct (dict_get u d) as [l'|] eqn:Hl'; [|reflexivity].
      destruct (wf_taggers_get h _ d u l' Hwf Hd Hl') as [i' Hi'].
      rewrite (lookup_app_l_Some _ _ _ _ Hi'), Hi'. reflexivity.
Qed.

Lemma mutate_leaves_other_tags_witness :
  wf_dict damage_true_false (taggers_ref img_a) = true
  /\ ("B" <> mutation_user (Add "A" "damage" "7")
      \/ "damage" <> mutation_tag (Add "A" "damage" "7"))
  /\ fst (read_tag img_a "B" "damage"
            (exec (mutate img_a (Add "A" "damage" "7")) damage_true_false))
     = fst (read_tag img_a "B" "damage" damage_true_false).
Proof.
  assert (Hne : "B" <> mutation_user (Add "A" "damage" "7")
                \/ "damage" <> mutation_tag (Add "A" "damage" "7"))
    by (left; discriminate).
  split; [reflexivity|]. split; [exact Hne|].
  apply (mutate_leaves_other_tags img_a (Add "A" "damage" "7") "B" "damage"
           damage_true_false); [reflexivity | exact Hne].
Defined.

(** ** More on save *)

Lemma deref_all_inners (h h' : heap) (d : dict loc) :
  inners h' = inners h -> deref_all h' d = deref_all h d.
Proof.
  intros E. induction d as [|[k l] r IH]; simpl; [reflexivity|].
  rewrite E, IH. reflexivity.
Qed.

(** X7: [save] changes the contents of no container: the image it returns has
    the paths, the skippers and the taggers of before, and every image reads
    after [save] what it read before. *)
Theorem save_keeps_contents (self other : Image) (h : heap) :
  wf_image h self = true ->
  wf_image h other = true ->
  exists (s : Image) (h1 : heap),
    save self h = (Ok s, h1)
    /\ original_size_path s = original_size_path self
    /\ small_size_path s = small_size_path self
    /\ taggers_view s h1 = taggers_view self h
    /\ skippers_view s h1 = skippers_view self h
    /\ wf_image h1 s = true
    /\ taggers_view other h1 = taggers_view other h
    /\ skippers_view other h1 = skippers_view other h
    /\ wf_image h1 other = true.
Proof.
  unfold wf_image. intros Hs Ho.
  apply andb_prop in Hs as [Hwf Hsk]. apply andb_prop in Ho as [Hwfo Hsko].
  destruct (sets h !! skippers_ref self) as [s0|] eqn:Hs0; [clear Hsk|discriminate].
  destruct (sets h !! skippers_ref other) as [so|] eqn:Hso; [clear Hsko|discriminate].
  destruct (wf_taggers_outer h _ Hwf) as [d Hd].
  destruct (wf_taggers_outer h _ Hwfo) as [d' Hd'].
  unfold wf_taggers in Hwf, Hwfo. rewrite Hd in Hwf. rewrite Hd' in Hwfo.
  eexists _, _. split; [apply (save_ok self h d s0 Hd Hs0)|].
  unfold taggers_view, skippers_view, wf_taggers. simpl.
  rewrite !list_lookup_middle by reflexivity.
  rewrite (lookup_app_l_Some _ _ _ _ Hd'), (lookup_app_l_Some _ _ _ _ Hso).
  rewrite Hd, Hd', Hs0, Hso, Hwf, Hwfo.
  repeat split; apply deref_all_inners; reflexivity.
Qed.

Lemma save_keeps_contents_witness :
  wf_image damage_true_false img_a = true
  /\ wf_image damage_true_false img_b = true
  /\ exists (s : Image) (h1 : heap),
       save img_a damage_true_false = (Ok s, h1)
       /\ original_size_path s = original_size_path img_a
       /\ small_size_path s = small_size_path img_a
       /\ taggers_view s h1 = taggers_view img_a damage_true_false
       /\ skippers_view s h1 = skippers_view img_a damage_true_false
       /\ wf_image h1 s = true
       /\ taggers_view img_b h1 = taggers_view img_b damage_true_false
       /\ skippers_view img_b h1 = skippers_view img_b damage_true_false
       /\ wf_image h1 img_b = true.
Proof.
  split; [reflexivity|]. split; [reflexivity|].
  apply (save_keeps_contents img_a img_b damage_true_false); reflexivity.
Defined.


(** ** More on the summary and the consensus *)

Lemma for_items_exact (items : list string) (tag_totals : dict (dict Z)) :
  for_items items tag_totals
  = if forallb key_unpacks items then Ok tag_totals else Raise ValueError.
Proof.
  induction items as [|item rest IH]; simpl; [reflexivity|].
  unfold unpack_pair, key_unpacks.
  destruct (PyStr.chars item) as [|a [|b [|c r]]]; simpl; try reflexivity.
  exact IH.
Qed.

Lemma in_keys_get {V : Type} (k : string) (d : dict V) :
  In k (dict_keys d) -> exists v, dict_get k d = Some v.
Proof.
  induction d as [|[k0 v0] r IH]; simpl; [contradiction|].
  intros [<-|H].
  - rewrite String.eqb_refl. eauto.
  - destruct (String.eqb k k0); eauto.
Qed.

Lemma for_users_exact (self : Image) (h : heap) (d : dict loc)
  (users : list string) (tag_totals : dict (dict Z)) :
  wf_taggers h (taggers_ref self) = true ->
  outers h !! taggers_ref self = Some d ->
  (forall u, In u users -> In u (dict_keys d)) ->
  for_users self users tag_totals h
  = (if forallb
          (fun u =>
             match tags_of h d u with
             | Some ks => forallb key_unpacks ks
             | None => false
             end) users
     then Ok tag_totals else Raise ValueError, h).
Proof.
  intros Hwf Hd. induction users as [|u rest IH]; intros Hin; simpl; [reflexivity|].
  destruct (in_keys_get u d (Hin u (or_introl eq_refl))) as [l Hl].
  destruct (wf_taggers_get h _ d u l Hwf Hd Hl) as [i Hi].
  cbv beta delta [bind outer_getitem read_outer read_inner lift ret raise].
  unfold tags_of at 1. rewrite Hd, Hl, Hi, for_items_exact.
  destruct (forallb key_unpacks (dict_keys i)); simpl; [|reflexivity].
  apply IH. intros u' Hu'. apply Hin. right. exact Hu'.
Qed.

Lemma sum_tag_values_run (self : Image) (h : heap) (d : dict loc) :
  wf_taggers h (taggers_ref self) = true ->
  outers h !! taggers_ref self = Some d ->
  _sum_tag_values_by_users self h
  = (if all_tags_unpack h d then Ok [] else Raise ValueError, h).
Proof.
  intros Hwf Hd. unfold _sum_tag_values_by_users, get_taggers.
  cbv beta delta [bind read_outer ret]. rewrite Hd.
  apply for_users_exact; auto.
Qed.

(** X9: what [_sum_tag_values_by_users] does on every store: it returns the
    empty dictionary when every tag name of every tagger has two
    characters, and raises [ValueError] otherwise; it leaves the store as
    it is. *)
Theorem sum_tag_values_exact (self : Image) (h : heap) (d : dict loc) :
  wf_taggers h (taggers_ref self) = true ->
  outers h !! taggers_ref self = Some d ->
  _sum_tag_values_by_users self h
  = (if all_tags_unpack h d then Ok [] else Raise ValueError, h).
Proof. exact (sum_tag_values_run self h d). Qed.

Lemma sum_tag_values_exact_witness :
  wf_taggers damage_true_false (taggers_ref img_a) = true
  /\ outers damage_true_false !! taggers_ref img_a = Some [("A", 0); ("B", 1)]
  /\ _sum_tag_values_by_users img_a damage_true_false
     = (if all_tags_unpack damage_true_false [("A", 0); ("B", 1)]
        then Ok [] else Raise ValueError, damage_true_false).
Proof.
  split; [reflexivity|]. split; [reflexivity|].
  apply (sum_tag_values_exact img_a damage_true_false [("A", 0); ("B", 1)]);
    reflexivity.
Defined.

(** A store where A and B disagree on the tag "ok": [True] against [7]. *)
Lemma ok_true_seven :
  exec (add_tag img_a "B" "ok" "7") (exec (add_tag img_a "A" "ok" "true") module_init)
  = mkHeap [[]] [[("A", 0); ("B", 1)]] [[("ok", VBool true)]; [("ok", VInt 7)]].
Proof. reflexivity. Qed.

(** X10: what [all_user_tags_equal] answers with two taggers or more: [True]
    when every tag name of every tagger has two characters, whatever the
    values, and [ValueError] otherwise. *)
Theorem all_user_tags_equal_exact (self : Image) (h : heap) (d : dict loc) :
  wf_taggers h (taggers_ref self) = true ->
  outers h !! taggers_ref self = Some d ->
  2 <= length (dict_keys d) ->
  all_user_tags_equal self h
  = (if all_tags_unpack h d then Ok true else Raise ValueError, h).
Proof.
  intros Hwf Hd Hlen. rewrite all_user_tags_equal_unfold, Hd.
  destruct (Nat.ltb_spec (length (dict_keys d)) 2) as [Hlt|_]; [lia|].
  rewrite (sum_tag_values_run self h d Hwf Hd).
  destruct (all_tags_unpack h d); reflexivity.
Qed.

Lemma all_user_tags_equal_exact_witness :
  wf_taggers (mkHeap [[]] [[("A", 0); ("B", 1)]]
                [[("ok", VBool true)]; [("ok", VInt 7)]]) (taggers_ref img_a) = true
  /\ outers (mkHeap [[]] [[("A", 0); ("B", 1)]]
               [[("ok", VBool true)]; [("ok", VInt 7)]]) !! taggers_ref img_a
     = Some [("A", 0); ("B", 1)]
  /\ 2 <= length (dict_keys [("A", 0); ("B", 1)])
  /\ all_user_tags_equal img_a
       (mkHeap [[]] [[("A", 0); ("B", 1)]] [[("ok", VBool true)]; [("ok", VInt 7)]])
     = (if all_tags_unpack
             (mkHeap [[]] [[("A", 0); ("B", 1)]]
                [[("ok", VBool true)]; [("ok", VInt 7)]]) [("A", 0); ("B", 1)]
        then Ok true else Raise ValueError,
        mkHeap [[]] [[("A", 0); ("B", 1)]] [[("ok", VBool true)]; [("ok", VInt 7)]]).
Proof.
  split; [reflexivity|]. split; [reflexivity|]. split; [simpl; lia|].
  apply (all_user_tags_equal_exact img_a
           (mkHeap [[]] [[("A", 0); ("B", 1)]]
              [[("ok", VBool true)]; [("ok", VInt 7)]]) [("A", 0); ("B", 1)]);
    [reflexivity | reflexivity | simpl; lia].
Defined.

(** X11: the body of the loop makes no entry: when it returns, the summary has
    the tags it had, and each tag has the values it had.  It can only add
    one to a count that is there. *)
Theorem sum_body_adds_no_entry
  (tag : string) (value : pyval) (tag_totals tag_totals' : dict (dict Z)) :
  sum_body tag value tag_totals = Ok tag_totals' ->
  dict_keys tag_totals' = dict_keys tag_totals
  /\ forall k, option_map dict_keys (dict_get k tag_totals')
               = option_map dict_keys (dict_get k tag_totals).
Proof.
  unfold sum_body. destruct (is_str value).
  - intros E. injection E as <-. split; reflexivity.
  - destruct (dict_get tag tag_totals) as [per_value|] eqn:Ht; [|discriminate].
    destruct (dict_get (py_str value) per_value) as [n|] eqn:Hv; [|discriminate].
    intros E. injection E as <-. split.
    + apply dict_keys_set_present. eapply dict_get_key_in; exact Ht.
    + intros k. destruct (String.eqb_spec tag k) as [<-|Hne].
      * rewrite dict_get_set_eq, Ht. simpl. f_equal.
        apply dict_keys_set_present. eapply dict_get_key_in; exact Hv.
      * rewrite dict_get_set_ne by exact Hne. reflexivity.
Qed.

Lemma sum_body_adds_no_entry_witness :
  sum_body "damage" (VBool true) [("damage", [("True", 0%Z)])]
  = Ok [("damage", [("True", 1%Z)])]
  /\ dict_keys [("damage", [("True", 1%Z)])] = dict_keys [("damage", [("True", 0%Z)])]
  /\ forall k, option_map dict_keys (dict_get k [("damage", [("True", 1%Z)])])
               = option_map dict_keys (dict_get k [("damage", [("True", 0%Z)])]).
Proof.
  split; [reflexivity|].
  apply (sum_body_adds_no_entry "damage" (VBool true)
           [("damage", [("True", 0%Z)])] [("damage", [("True", 1%Z)])]).
  reflexivity.
Defined.

Lemma unique_keys_app_head {V : Type} (pre : dict V) (k : string) (v : V) (suf : dict V) :
  unique_keys (dict_keys (pre ++ (k, v) :: suf)) = true ->
  dict_get k (pre ++ (k, v) :: suf) = Some v.
Proof.
  induction pre as [|[k0 v0] r IH]; simpl.
  - intros _. rewrite String.eqb_refl. reflexivity.
  - intros H. apply andb_prop in H as [H0 Hr].
    destruct (String.eqb_spec k k0) as [->|_]; [|exact (IH Hr)].
    exfalso. apply negb_true_iff in H0. unfold dict_keys in H0.
    rewrite (map_app fst), key_in_app in H0. simpl in H0.
    rewrite String.eqb_refl, orb_true_r in H0. discriminate.
Qed.

Lemma for_totals_suffix (pre suf : dict (dict Z)) :
  unique_keys (dict_keys (pre ++ suf)) = true ->
  for_totals (dict_keys suf) (pre ++ suf)
  = Ok (forallb (fun kv => (length (dict_keys (snd kv)) <=? 2)%nat) suf).
Proof.
  revert pre. induction suf as [|[k v] r IH]; intros pre Hu; simpl; [reflexivity|].
  rewrite (unique_keys_app_head pre k v r Hu).
  destruct (Nat.ltb_spec 2 (length (dict_keys v))) as [Hgt|Hle].
  - replace (length (dict_keys v) <=? 2)%nat with false
      by (symmetry; apply Nat.leb_gt; lia).
    reflexivity.
  - replace (length (dict_keys v) <=? 2)%nat with true
      by (symmetry; apply Nat.leb_le; lia).
    simpl. specialize (IH (pre ++ [(k, v)])).
    rewrite <- app_assoc in IH. simpl in IH. apply IH. exact Hu.
Qed.

(** X12: the test of [all_user_tags_equal] on a summary: it answers [False] when
    some tag has three values or more, and [True] otherwise; a tag with two
    different values passes. *)
Theorem for_totals_threshold (tag_totals : dict (dict Z)) :
  unique_keys (dict_keys tag_totals) = true ->
  for_totals (dict_keys tag_totals) tag_totals
  = Ok (forallb (fun kv => (length (dict_keys (snd kv)) <=? 2)%nat) tag_totals).
Proof. intros Hu. apply (for_totals_suffix [] tag_totals). exact Hu. Qed.

Lemma for_totals_threshold_witness :
  unique_keys (dict_keys [("damage", [("True", 1%Z); ("False", 1%Z)])]) = true
  /\ for_totals (dict_keys [("damage", [("True", 1%Z); ("False", 1%Z)])])
       [("damage", [("True", 1%Z); ("False", 1%Z)])]
     = Ok (forallb (fun kv => (length (dict_keys (snd kv)) <=? 2)%nat)
             [("damage", [("True", 1%Z); ("False", 1%Z)])]).
Proof.
  split; [reflexivity|].
  apply (for_totals_threshold [("damage", [("True", 1%Z); ("False", 1%Z)])]).
  reflexivity.
Defined.

(** ** More on the storm catalogue *)

Local Open Scope string_scope.

Section CollectorMore.

Context {Storm regex : Type}.
Variable mkStorm : string -> string -> string -> string -> Storm.
Variable re_compile : string -> option regex.
Variable re_search : regex -> string -> bool.
Variable findall_index : string -> list (string * string * string * string).

Local Abbreviation generate :=
  (generate_storm_list Storm mkStorm regex re_compile re_search findall_index).
Local Abbreviation get :=
  (get_storm_list Storm mkStorm regex re_compile re_search findall_index).
Local Abbreviation init :=
  (ConnectionHandler_init Storm mkStorm regex re_compile re_search findall_index).

Lemma for_matches_filter (re : regex)
  (found : list (string * string * string * string)) (acc : list Storm) :
  for_matches Storm mkStorm regex re_search re found acc
  = (acc
     ++ map (fun '(storm_url, storm_id, storm_name, storm_year) =>
               mkStorm storm_url storm_id storm_name storm_year)
          (List.filter (fun '(_, storm_id, storm_name, storm_year) =>
                     re_search re storm_id || re_search re storm_name
                     || re_search re storm_year) found))%list.
Proof.
  revert acc. induction found as [|[[[a b] c] d] rest IH]; intros acc; simpl.
  - rewrite app_nil_r. reflexivity.
  - destruct (re_search re b || re_search re c || re_search re d); simpl.
    + rewrite IH, <- app_assoc. reflexivity.
    + apply IH.
Qed.

(** X15: with a pattern that compiles, [generate_storm_list] replaces the list
    by the storms of the page, in the order of the page, whose id, name or
    year the pattern finds; the url is not searched, and the list of before
    is dropped. *)
Theorem generate_storm_list_filters
  (self : ConnectionHandler Storm) (p : string) (re : regex) :
  re_compile p = Some re ->
  generate self p
  = (Ok tt,
     mkHandler (r_text self)
       (map (fun '(storm_url, storm_id, storm_name, storm_year) =>
               mkStorm storm_url storm_id storm_name storm_year)
          (List.filter (fun '(_, storm_id, storm_name, storm_year) =>
                     re_search re storm_id || re_search re storm_name
                     || re_search re storm_year)
             (findall_index (r_text self))))
       (Some p) (S (generate_calls self))).
Proof.
  intros Hc. unfold generate_storm_list. rewrite Hc, for_matches_filter.
  reflexivity.
Qed.

(** X16: a pattern that does not compile is remembered all the same: the first
    [get_storm_list] with it raises [re.error], and the next one with the
    same pattern raises nothing and returns the empty list. *)
Theorem get_storm_list_bad_pattern (self : ConnectionHandler Storm) (p : string) :
  re_compile p = None ->
  pattern_differs p (storm_list_last_pattern self) = true ->
  fst (get self p) = Raise ReError
  /\ get (snd (get self p)) p = (Ok [], snd (get self p)).
Proof.
  intros Hc Hd. unfold get_storm_list at 1 3 4. rewrite Hd.
  unfold generate_storm_list. rewrite Hc. simpl. split; [reflexivity|].
  unfold get_storm_list. simpl. rewrite String.eqb_refl. reflexivity.
Qed.

(** X17: a handler that was just made answers [get_storm_list()], whose pattern
    is the default one, from the list [__init__] made, without another call
    of [generate_storm_list]. *)
Theorem get_storm_list_after_init (text : string) :
  get_storm_list Storm mkStorm regex re_compile re_search findall_index
    (snd (ConnectionHandler_init Storm mkStorm regex re_compile re_search
            findall_index text)) ".*"
  = (Ok (storm_list (snd (init text))), snd (init text)).
Proof.
  unfold ConnectionHandler_init, generate_storm_list.
  destruct (re_compile ".*"); reflexivity.
Qed.

End CollectorMore.

Lemma generate_storm_list_filters_witness :
  toy_compile "michael" = Some "michael"
  /\ generate_storm_list (string * string) (fun _ id _ y => (id, y)) string
       toy_compile String.eqb toy_page toy_handler "michael"
     = (Ok tt,
        mkHandler (r_text toy_handler)
          (map (fun '(storm_url, storm_id, storm_name, storm_year) =>
                  (storm_id, storm_year))
             (List.filter (fun '(_, storm_id, storm_name, storm_year) =>
                        String.eqb "michael" storm_id
                        || String.eqb "michael" storm_name
                        || String.eqb "michael" storm_year)
                (toy_page (r_text toy_handler))))
          (Some "michael") (S (generate_calls toy_handler))).
Proof.
  split; [reflexivity|].
  apply (generate_storm_list_filters (fun _ id _ y => (id, y)) toy_compile
           String.eqb toy_page toy_handler "michael" "michael").
  reflexivity.
Defined.

Lemma get_storm_list_bad_pattern_witness :
  toy_compile "(" = None
  /\ pattern_differs "(" (storm_list_last_pattern toy_handler) = true
  /\ fst (get_storm_list (string * string) (fun _ id _ y => (id, y)) string
            toy_compile String.eqb toy_page toy_handler "(") = Raise ReError
  /\ get_storm_list (string * string) (fun _ id _ y => (id, y)) string
       toy_compile String.eqb toy_page
       (snd (get_storm_list (string * string) (fun _ id _ y => (id, y)) string
               toy_compile String.eqb toy_page toy_handler "(")) "("
     = (Ok [],
        snd (get_storm_list (string * string) (fun _ id _ y => (id, y)) string
               toy_compile String.eqb toy_page toy_handler "(")).
Proof.
  split; [reflexivity|]. split; [reflexivity|].
  apply (get_storm_list_bad_pattern (fun _ id _ y => (id, y)) toy_compile
           String.eqb toy_page toy_handler "("); reflexivity.
Defined.

(** ** get_http_response *)

Section HttpFacts.

Context {world : Type}.
Variable requests_get : string -> world -> (Response + pyexc) * world.
Variable print : string -> world -> world.
Variable concat_msg : string.

Local Abbreviation http := (get_http_response world requests_get print concat_msg).

(** X18: [exit()] is never reached: [get_http_response] returns, or lets through
    an exception that does not derive from [Exception]. *)
Theorem get_http_response_never_exits (url : string) (w : world) :
  match fst (get_http_response world requests_get print concat_msg url w) with
  | Returned _ => True
  | Propagated e => is_Exception e = false
  | Exited => False
  end.
Proof.
  unfold get_http_response, http_handler, add_str_int.
  destruct (requests_get url w) as [[r|e] w1]; simpl.
  - destruct (status_code r =? codes_ok)%Z; simpl; exact I.
  - destruct (is_Exception e) eqn:E; simpl; [exact I | exact E].
Qed.

Lemma get_http_response_bad_status_aux
  (url : string) (w w1 : world) (r : Response) :
  requests_get url w = (inl r, w1) ->
  status_code r <> codes_ok ->
  http url w
  = (Returned None,
     print ("Error: " ++ concat_msg)
       (print ("Error occurred while trying to connect to " ++ url) w1)).
Proof.
  intros Hget Hne. unfold get_http_response. rewrite Hget.
  destruct (Z.eqb_spec (status_code r) codes_ok); [contradiction|].
  reflexivity.
Qed.

(** X19: a response whose status is not 200 is not reported as such: building
    the line to print fails, the failure is handled as an error of the
    connection, and [get_http_response] returns [None]. *)
Theorem get_http_response_bad_status
  (url : string) (w w1 : world) (r : Response) :
  requests_get url w = (inl r, w1) ->
  status_code r <> codes_ok ->
  http url w
  = (Returned None,
     print ("Error: " ++ concat_msg)
       (print ("Error occurred while trying to connect to " ++ url) w1)).
Proof. exact (get_http_response_bad_status_aux url w w1 r). Qed.

Section HandlerInitFacts.

Context {Storm regex : Type}.
Variable mkStorm : string -> string -> string -> string -> Storm.
Variable re_compile : string -> option regex.
Variable re_search : regex -> string -> bool.
Variable findall_index : string -> list (string * string * string * string).

(** X20: when the site answers with a status that is not 200, no handler is
    made: [ConnectionHandler()] raises [AttributeError]. *)
Theorem ConnectionHandler_new_bad_status (w w1 : world) (r : Response) (re : regex) :
  requests_get URL_BASE w = (inl r, w1) ->
  status_code r <> codes_ok ->
  re_compile ".*" = Some re ->
  fst (ConnectionHandler_new Storm mkStorm regex re_compile re_search
         findall_index world requests_get print concat_msg w)
  = InitAttributeError.
Proof.
  intros Hget Hne Hc. unfold ConnectionHandler_new.
  rewrite (get_http_response_bad_status_aux URL_BASE w w1 r Hget Hne).
  rewrite Hc. reflexivity.
Qed.

End HandlerInitFacts.

End HttpFacts.

Lemma get_http_response_bad_status_witness :
  toy_get "https://storms.ngs.noaa.gov/" [] = (inl (mkResponse 404 "Not Found"), [])
  /\ status_code (mkResponse 404 "Not Found") <> codes_ok
  /\ get_http_response (list string) toy_get toy_print "can only concatenate"
       "https://storms.ngs.noaa.gov/" []
     = (Returned None,
        toy_print ("Error: " ++ "can only concatenate")
          (toy_print ("Error occurred while trying to connect to "
                      ++ "https://storms.ngs.noaa.gov/") [])).
Proof.
  assert (Hne : status_code (mkResponse 404 "Not Found") <> codes_ok)
    by discriminate.
  split; [reflexivity|]. split; [exact Hne|].
  apply (get_http_response_bad_status toy_get toy_print "can only concatenate"
           "https://storms.ngs.noaa.gov/" [] [] (mkResponse 404 "Not Found"));
    [reflexivity | exact Hne].
Defined.

Lemma ConnectionHandler_new_bad_status_witness :
  toy_get URL_BASE [] = (inl (mkResponse 404 "Not Found"), [])
  /\ status_code (mkResponse 404 "Not Found") <> codes_ok
  /\ toy_compile ".*" = Some ".*"
  /\ fst (ConnectionHandler_new (string * string) (fun _ id _ y => (id, y))
            string toy_compile String.eqb toy_page (list string) toy_get
            toy_print "can only concatenate" [])
     = InitAttributeError.
Proof.
  assert (Hne : status_code (mkResponse 404 "Not Found") <> codes_ok)
    by discriminate.
  split; [reflexivity|]. split; [exact Hne|]. split; [reflexivity|].
  apply (ConnectionHandler_new_bad_status toy_get toy_print
           "can only concatenate" (fun _ id _ y => (id, y)) toy_compile
           String.eqb toy_page [] [] (mkResponse 404 "Not Found") ".*");
    [reflexivity | exact Hne | reflexivity].
Defined.

(** ** More on the tar fetcher *)

Section TarMore.

Context {world member : Type}.
Variable isfile : string -> world -> bool.
Variable print : string -> world -> world.
Variable retrieve : string -> string -> world -> outcome unit * world.
Variable open_members : string -> world -> (list member + exn) * world.

Local Abbreviation info := (get_tar_info world member open_members).

(** X21: the archive is opened once: when [get_tar_info] has returned the
    members, every later call returns these members without opening
    anything, whatever [tar_file_path] is by then. *)
Theorem get_tar_info_opens_once
  (self : Tar) (w w1 : world) (ms : list member) (idx : option (list member)) :
  info self None w = (InfoOk ms, idx, w1) ->
  idx = Some ms
  /\ forall (self' : Tar) (w2 : world), info self' idx w2 = (InfoOk ms, idx, w2).
Proof.
  unfold get_tar_info. destruct (tar_file_path self) as [p|]; [|discriminate].
  destruct (open_members p w) as [[ms'|e] w']; [|discriminate].
  intros E. injection E as <- <- <-. split; reflexivity.
Qed.

(** X22: after [download_url], whatever its arguments and however it ended,
    [tar_file_path] is the directory followed by the file name and ".tar",
    with nothing put between them, and [get_tar_info] opens that path. *)
Theorem get_tar_info_after_download
  (self : Tar) (dir : string) (overwrite : bool) (w w' : world) :
  tar_file_path
    (snd (fst (download_url world isfile print retrieve self dir overwrite w)))
  = Some (dir ++ tar_file_name self ++ ".tar")
  /\ info (snd (fst (download_url world isfile print retrieve self dir overwrite w)))
       None w'
     = match open_members (dir ++ tar_file_name self ++ ".tar") w' with
       | (inl ms, w1) => (InfoOk ms, Some ms, w1)
       | (inr e, w1) => (InfoRaise e, None, w1)
       end.
Proof.
  assert (E : snd (fst (download_url world isfile print retrieve self dir overwrite w))
              = set_tar_file_path self (dir ++ tar_file_name self ++ ".tar")).
  { unfold download_url. destruct overwrite; simpl; [reflexivity|].
    destruct (isfile _ w); [reflexivity|].
    destruct (retrieve _ _ w); reflexivity. }
  rewrite E. split; reflexivity.
Qed.

(** When the file is there and [overwrite] is false, nothing is retrieved:
    [download_url] prints that the file exists and returns. *)
Theorem download_url_keeps_existing (self : Tar) (dir : string) (w : world) :
  isfile (dir ++ tar_file_name self ++ ".tar") w = true ->
  download_url world isfile print retrieve self dir false w
  = (Ok tt, set_tar_file_path self (dir ++ tar_file_name self ++ ".tar"),
     print ("A file at " ++ (dir ++ tar_file_name self ++ ".tar")
            ++ " already exists") w).
Proof. intros H. unfold download_url. simpl. rewrite H. reflexivity. Qed.

End TarMore.

Lemma get_tar_info_opens_once_witness :
  get_tar_info (list string) string toy_open
    (set_tar_file_path toy_tar "cache/a.tar") None []
  = (InfoOk ["x.jpg"; "y.jpg"], Some ["x.jpg"; "y.jpg"], ["cache/a.tar"])
  /\ Some ["x.jpg"; "y.jpg"] = Some ["x.jpg"; "y.jpg"]
  /\ forall (self' : Tar) (w2 : list string),
       get_tar_info (list string) string toy_open self'
         (Some ["x.jpg"; "y.jpg"]) w2
       = (InfoOk ["x.jpg"; "y.jpg"], Some ["x.jpg"; "y.jpg"], w2).
Proof.
  split; [reflexivity|].
  apply (get_tar_info_opens_once toy_open (set_tar_file_path toy_tar "cache/a.tar")
           [] ["cache/a.tar"] ["x.jpg"; "y.jpg"] (Some ["x.jpg"; "y.jpg"])).
  reflexivity.
Defined.

Lemma download_url_keeps_existing_witness :
  (fun (_ : string) (_ : list string) => true)
    ("cache/" ++ tar_file_name toy_tar ++ ".tar") [] = true
  /\ download_url (list string) (fun _ _ => true) toy_print
       (fun _ _ w => (Ok tt, w)) toy_tar "cache/" false []
     = (Ok tt, set_tar_file_path toy_tar ("cache/" ++ tar_file_name toy_tar ++ ".tar"),
        toy_print ("A file at " ++ ("cache/" ++ tar_file_name toy_tar ++ ".tar")
                   ++ " already exists") []).
Proof.
  split; [reflexivity|].
  apply (download_url_keeps_existing (fun _ _ => true) toy_print
           (fun _ _ w => (Ok tt, w)) toy_tar "cache/" []).
  reflexivity.
Defined.

(** ** ProgressBar *)

Section ProgressFacts.

Context {bar : Type}.
Variable bar_n : bar -> Z.
Variable set_total : Z -> bar -> bar.
Variable update : Z -> bar -> bar.

(** X23: provided [update(k)] moves [n] forward by [k], as the one of [tqdm]
    does, [update_to(b, b_size, t_size)] leaves [n] at [b * b_size],
    wherever it was. *)
Theorem update_to_sets_position (b b_size : Z) (t_size : option Z) (self : bar) :
  (forall k s, bar_n (update k s) = (bar_n s + k)%Z) ->
  bar_n (update_to bar bar_n set_total update b b_size t_size self)
  = (b * b_size)%Z.
Proof. intros Hup. unfold update_to. rewrite Hup. lia. Qed.

End ProgressFacts.

Lemma update_to_sets_position_witness :
  (forall (k : Z) (s : Z * Z), fst (fst s + k, snd s)%Z = (fst s + k)%Z)
  /\ fst (update_to (Z * Z) fst (fun t s => (fst s, t))
            (fun k s => (fst s + k, snd s)%Z) 3 8192 (Some 100000%Z) (5, 0)%Z)
     = (3 * 8192)%Z.
Proof.
  split; [reflexivity|].
  apply (update_to_sets_position fst (fun t s => (fst s, t))
           (fun k s => (fst s + k, snd s)%Z) 3 8192 (Some 100000%Z) (5, 0)%Z).
  reflexivity.
Defined.

(** ** The download loop of collect.py *)

Section DownloadLoopFacts.

Context {world : Type}.
Variable download : world -> (unit + pyexc) * world.
Variable is_interrupt : pyexc -> bool.
Variable print : string -> world -> world.
Variable sleep : Z -> world -> world.
Variable not_a_class : pyexc.
Variable concat_error : pyexc.

(** X24: the loop never tries a download again: it calls [download_url] once,
    and ends when the call returns; an interrupt goes through; any other
    exception is replaced by the [TypeError] of the second [except] clause,
    with nothing printed and no pause. *)
Theorem download_loop_never_retries (fuel : nat) (w : world) :
  download_loop world download is_interrupt print sleep not_a_class
    concat_error (S fuel) w
  = match download w with
    | (inl _, w1) => (LoopDone, w1)
    | (inr e, w1) =>
        (LoopRaised (if is_interrupt e then e else not_a_class), w1)
    end.
Proof.
  simpl. destruct (download w) as [[u|e] w1]; [reflexivity|].
  destruct (is_interrupt e); reflexivity.
Qed.

End DownloadLoopFacts.

(** ** expanded *)

Local Open Scope list_scope.

Lemma inner_contents_inners (h h' : heap) (d : dict loc) :
  inners h' = inners h -> inner_contents h' d = inner_contents h d.
Proof.
  intros E. induction d as [|[k l] r IH]; simpl; [reflexivity|].
  rewrite E, IH. reflexivity.
Qed.

Lemma inner_contents_grow (h : heap) (extra : list (dict pyval)) (d : dict loc) :
  forallb (fun kv => (snd kv <? length (inners h))%nat) d = true ->
  inner_contents (mkHeap (sets h) (outers h) (inners h ++ extra)) d
  = inner_contents h d.
Proof.
  induction d as [|[k l] r IH]; simpl; [reflexivity|].
  intros H. apply andb_prop in H as [Hl Hr]. apply Nat.ltb_lt in Hl.
  rewrite (lookup_app_l _ _ _ Hl), (IH Hr). reflexivity.
Qed.

Lemma inner_contents_length (h : heap) (d : dict loc) :
  forallb (fun kv => (snd kv <? length (inners h))%nat) d = true ->
  length (inner_contents h d) = length d.
Proof.
  induction d as [|[k l] r IH]; simpl; [reflexivity|].
  intros H. apply andb_prop in H as [Hl Hr]. apply Nat.ltb_lt in Hl.
  destruct (lookup_lt_is_Some_2 _ _ Hl) as [i Hi]. rewrite Hi. simpl.
  rewrite (IH Hr). reflexivity.
Qed.

(** On a taggers dictionary whose per-user dictionaries are pairwise
    different and not yet in the memo, the deep copy makes one new
    dictionary per user, at the end of the store. *)
Lemma deepcopy_items_fresh (d : dict loc) :
  forall (memo : list (loc * loc)) (h : heap),
    forallb (fun kv => (snd kv <? length (inners h))%nat) d = true ->
    distinct_locs (map snd d) = true ->
    forallb (fun kv => match memo_get (snd kv) memo with
                       | None => true
                       | Some _ => false
                       end) d = true ->
    exists memo',
      deepcopy_items d memo h
      = (Ok (combine (dict_keys d) (seq (length (inners h)) (length d)), memo'),
         mkHeap (sets h) (outers h) (inners h ++ inner_contents h d)).
Proof.
  induction d as [|[k l] r IH]; intros memo h Hb Hdis Hmemo; simpl.
  - exists memo. unfold ret. rewrite app_nil_r, heap_eta. reflexivity.
  - simpl in Hb, Hdis, Hmemo.
    apply andb_prop in Hb as [Hl Hb]. apply andb_prop in Hdis as [Hnot Hdis].
    apply andb_prop in Hmemo as [Hm Hmemo].
    destruct (memo_get l memo) eqn:Hget; [discriminate|].
    apply Nat.ltb_lt in Hl. destruct (lookup_lt_is_Some_2 _ _ Hl) as [i Hi].
    set (h1 := mkHeap (sets h) (outers h) (inners h ++ [i])).
    destruct (IH ((l, length (inners h)) :: memo) h1) as [memo' E].
    + simpl. rewrite length_app. simpl.
      apply (forallb_bound_le (length (inners h))); [lia | exact Hb].
    + exact Hdis.
    + apply negb_true_iff in Hnot. clear - Hnot Hmemo.
      induction r as [|[k' l'] r IH]; simpl in *; [reflexivity|].
      apply andb_prop in Hmemo as [H1 H2]. apply orb_false_elim in Hnot as [N1 N2].
      rewrite Nat.eqb_sym, N1, H1, (IH N2 H2). reflexivity.
    + exists memo'.
      cbv beta delta [bind deepcopy_inner read_inner ret]. rewrite Hi.
      fold h1. rewrite E. simpl. rewrite length_app. simpl.
      rewrite Nat.add_1_r, <- app_assoc. simpl. unfold h1.
      rewrite (inner_contents_grow h [i] r Hb). reflexivity.
Qed.

Lemma deref_all_copy (h hx : heap) (d : dict loc) :
  forall prefix : list (dict pyval),
    forallb (fun kv => (snd kv <? length (inners h))%nat) d = true ->
    inners hx = prefix ++ inner_contents h d ->
    deref_all hx (combine (dict_keys d) (seq (length prefix) (length d)))
    = deref_all h d.
Proof.
  induction d as [|[k l] r IH]; intros prefix Hb Hx; simpl; [reflexivity|].
  simpl in Hb, Hx. apply andb_prop in Hb as [Hl Hb]. apply Nat.ltb_lt in Hl.
  destruct (lookup_lt_is_Some_2 _ _ Hl) as [i Hi]. rewrite Hi in *.
  rewrite Hx, list_lookup_middle by reflexivity.
  specialize (IH (prefix ++ [i]) Hb).
  rewrite length_app, Nat.add_1_r in IH. rewrite IH; [reflexivity|].
  rewrite Hx, <- app_assoc. reflexivity.
Qed.

Lemma deref_all_agree (h h' : heap) (d : dict loc) :
  (forall kv, In kv d -> inners h' !! snd kv = inners h !! snd kv) ->
  deref_all h' d = deref_all h d.
Proof.
  induction d as [|[k l] r IH]; intros H; simpl; [reflexivity|].
  pose proof (H (k, l) (or_introl eq_refl)) as Hl. simpl in Hl.
  rewrite Hl, IH; [reflexivity|].
  intros kv Hkv. apply H. right. exact Hkv.
Qed.

Lemma in_combine_seq (ks : list string) (n len : nat) (kv : string * nat) :
  In kv (combine ks (seq n len)) -> n <= snd kv < n + len.
Proof.
  destruct kv as [k l]. intros H. apply in_combine_r in H.
  apply in_seq in H. simpl. lia.
Qed.

Section ExpandedFacts.

Variable path_join : string -> string -> string.
Variable validate_and_expand_path : string -> outcome string.

Local Abbreviation expand := (expanded path_join validate_and_expand_path).

(** What [expanded] does on a saved image: it makes a new set, a new
    taggers dictionary and one new dictionary per user. *)
Lemma expanded_saved_run (self : Image) (scope : string) (h : heap)
  (k t : loc) (s0 : list string) (d : dict loc) (o sm : string) :
  own_skippers self = Some k -> own_taggers self = Some t ->
  sets h !! k = Some s0 -> outers h !! t = Some d ->
  forallb (fun kv => (snd kv <? length (inners h))%nat) d = true ->
  distinct_locs (map snd d) = true ->
  validate_and_expand_path (path_join scope (original_size_path self)) = Ok o ->
  validate_and_expand_path (path_join scope (small_size_path self)) = Ok sm ->
  expand self scope h
  = (Ok (mkImage o sm (Some (length (sets h))) (Some (length (outers h)))),
     mkHeap (sets h ++ [s0])
       (outers h ++ [combine (dict_keys d) (seq (length (inners h)) (length d))])
       (inners h ++ inner_contents h d)).
Proof.
  intros Hk Ht Hs Hd Hb Hdis Ho Hsm.
  set (hS := mkHeap (sets h ++ [s0]) (outers h) (inners h)).
  destruct (deepcopy_items_fresh d [] hS Hb Hdis) as [memo' E].
  { clear. induction d as [|kv r IH]; simpl; [reflexivity | exact IH]. }
  unfold expanded, deepcopy_image. rewrite Hk, Ht, Ho, Hsm.
  unfold copy_set, deepcopy_outer.
  cbv beta delta [bind read_set read_outer ret lift].
  rewrite Hs. fold hS. change (outers hS) with (outers h). rewrite Hd, E.
  simpl. rewrite (inner_contents_inners h hS d eq_refl). reflexivity.
Qed.

(** X13: the expanded copy of a saved image is a copy of its own: it shows the
    skippers and the taggers of the image, the image shows what it showed,
    and a later mutation made through the image does not show in the
    copy. *)
Theorem expanded_saved_is_independent
  (self : Image) (scope : string) (m : mutation) (h : heap)
  (k t : loc) (o sm : string) :
  own_skippers self = Some k -> own_taggers self = Some t ->
  wf_image h self = true -> wf_dict h t = true ->
  validate_and_expand_path (path_join scope (original_size_path self)) = Ok o ->
  validate_and_expand_path (path_join scope (small_size_path self)) = Ok sm ->
  exists (c : Image) (h1 h2 : heap),
    expand self scope h = (Ok c, h1)
    /\ original_size_path c = o
    /\ small_size_path c = sm
    /\ taggers_view c h1 = taggers_view self h
    /\ skippers_view c h1 = skippers_view self h
    /\ taggers_view self h1 = taggers_view self h
    /\ mutate self m h1 = (Ok tt, h2)
    /\ taggers_view c h2 = taggers_view c h1.
Proof.
  intros Hk Ht Hwi Hwd Ho Hsm.
  assert (Hrt : taggers_ref self = t) by (unfold taggers_ref; rewrite Ht; reflexivity).
  assert (Hrk : skippers_ref self = k) by (unfold skippers_ref; rewrite Hk; reflexivity).
  unfold wf_image in Hwi. rewrite Hrt, Hrk in Hwi.
  apply andb_prop in Hwi as [Hwf Hsk].
  destruct (sets h !! k) as [s0|] eqn:Hs0; [clear Hsk|discriminate].
  unfold wf_dict in Hwd. apply andb_prop in Hwd as [_ Hwd].
  destruct (wf_taggers_outer h t Hwf) as [d Hd]. rewrite Hd in Hwd.
  apply andb_prop in Hwd as [_ Hdis].
  pose proof Hwf as Hb. unfold wf_taggers in Hb. rewrite Hd in Hb.
  pose proof (expanded_saved_run self scope h k t s0 d o sm Hk Ht Hs0 Hd Hb Hdis Ho Hsm)
    as Hrun.
  set (n := length (inners h)) in *.
  set (dc := combine (dict_keys d) (seq n (length d))) in *.
  remember (mkHeap (sets h ++ [s0]) (outers h ++ [dc]) (inners h ++ inner_contents h d))
    as h1 eqn:Eh1.
  remember (mkImage o sm (Some (length (sets h))) (Some (length (outers h)))) as c eqn:Ec.
  assert (Hin1 : inners h1 = inners h ++ inner_contents h d) by (subst h1; reflexivity).
  assert (Hlen1 : length (inners h1) = n + length d).
  { rewrite Hin1, length_app, (inner_contents_length h d Hb). reflexivity. }
  assert (Htl : t < length (outers h)) by (eapply lookup_lt_Some; exact Hd).
  assert (Hd1 : outers h1 !! taggers_ref self = Some d).
  { rewrite Hrt. subst h1. simpl. apply lookup_app_l_Some. exact Hd. }
  assert (Hc1 : outers h1 !! taggers_ref c = Some dc).
  { subst c h1. simpl. apply list_lookup_middle. reflexivity. }
  assert (Hwf1 : wf_taggers h1 (taggers_ref self) = true).
  { unfold wf_taggers. rewrite Hd1.
    apply (forallb_bound_le n); [lia | exact Hb]. }
  assert (Hview1 : deref_all h1 dc = deref_all h d).
  { apply (deref_all_copy h h1 d (inners h) Hb Hin1). }
  assert (Hself1 : deref_all h1 d = deref_all h d).
  { apply deref_all_ext; [exact Hb|]. intros l Hl. rewrite Hin1.
    apply lookup_app_l. exact Hl. }
  destruct (mutate_run self m h1 Hwf1)
    as (d' & Hd' & [(l & i & Hl & Hi & E) | (Hkey & E)]);
    (assert (d' = d) by congruence); subst d'.
  - exists c, h1, (exec (mutate self m) h1). repeat split.
    + exact Hrun.
    + subst c. reflexivity.
    + subst c. reflexivity.
    + unfold taggers_view. rewrite Hc1, Hrt, Hd. exact Hview1.
    + unfold skippers_view. rewrite Hrk, Hs0. subst c h1. simpl.
      apply list_lookup_middle. reflexivity.
    + unfold taggers_view. rewrite Hd1. rewrite Hrt, Hd. exact Hself1.
    + unfold exec. rewrite E. reflexivity.
    + unfold exec. rewrite E. unfold taggers_view. simpl. rewrite Hc1.
      apply deref_all_agree.
      intros kv Hkv. simpl. apply in_combine_seq in Hkv.
      apply list_lookup_insert_ne.
      pose proof (forallb_snd_get (fun x => (x <? n)%nat) _ l d Hb Hl) as Hlt.
      apply Nat.ltb_lt in Hlt. lia.
  - exists c, h1, (exec (mutate self m) h1). repeat split.
    + exact Hrun.
    + subst c. reflexivity.
    + subst c. reflexivity.
    + unfold taggers_view. rewrite Hc1, Hrt, Hd. exact Hview1.
    + unfold skippers_view. rewrite Hrk, Hs0. subst c h1. simpl.
      apply list_lookup_middle. reflexivity.
    + unfold taggers_view. rewrite Hd1. rewrite Hrt, Hd. exact Hself1.
    + unfold exec. rewrite E. reflexivity.
    + unfold exec. rewrite E. unfold taggers_view. simpl.
      rewrite list_lookup_insert_ne, Hc1.
      * apply deref_all_agree. intros kv Hkv. simpl.
        apply in_combine_seq in Hkv. apply lookup_app_l. lia.
      * rewrite Hrt. subst c. unfold taggers_ref. simpl. lia.
Qed.

(** X14: the expanded copy of an image that was not saved is another view of
    the containers of the class: [expanded] makes no container, and a
    mutation made afterwards through the image shows in the copy. *)
Theorem expanded_unsaved_shares
  (self : Image) (scope : string) (m : mutation) (h : heap) (o sm : string) :
  own_skippers self = None -> own_taggers self = None ->
  wf_taggers h cls_taggers = true ->
  validate_and_expand_path (path_join scope (original_size_path self)) = Ok o ->
  validate_and_expand_path (path_join scope (small_size_path self)) = Ok sm ->
  exists (h2 : heap) (ks : list string),
    expand self scope h = (Ok (mkImage o sm None None), h)
    /\ mutate self m h = (Ok tt, h2)
    /\ get_taggers (mkImage o sm None None) h2 = (Ok ks, h2)
    /\ key_in (mutation_user m) ks = true.
Proof.
  intros Hk Ht Hwf Ho Hsm.
  assert (Hrt : taggers_ref self = cls_taggers)
    by (unfold taggers_ref; rewrite Ht; reflexivity).
  rewrite <- Hrt in Hwf.
  destruct (touch_then_read self (mutation_user m) (mutation_tag m)
              (mutation_value m) h Hwf) as (h2 & ks & Hrun & Hget & Hin & _).
  exists h2, ks. repeat split.
  - unfold expanded, deepcopy_image. rewrite Hk, Ht, Ho, Hsm. reflexivity.
  - rewrite mutate_eq. exact Hrun.
  - unfold get_taggers in *. rewrite Hrt in Hget. exact Hget.
  - exact Hin.
Qed.

End ExpandedFacts.

Lemma expanded_saved_is_independent_witness :
  own_skippers img_saved = Some 1
  /\ own_taggers img_saved = Some 1
  /\ wf_image saved_store img_saved = true
  /\ wf_dict saved_store 1 = true
  /\ exists (c : Image) (h1 h2 : heap),
       expanded (fun a b => (a ++ b)%string) (fun p => Ok p) img_saved "/data/"
         saved_store = (Ok c, h1)
       /\ original_size_path c = "/data/a.jpg"%string
       /\ small_size_path c = "/data/a_small.jpg"%string
       /\ taggers_view c h1 = taggers_view img_saved saved_store
       /\ skippers_view c h1 = skippers_view img_saved saved_store
       /\ taggers_view img_saved h1 = taggers_view img_saved saved_store
       /\ mutate img_saved (Remove "A" "damage") h1 = (Ok tt, h2)
       /\ taggers_view c h2 = taggers_view c h1.
Proof.
  split; [reflexivity|]. split; [reflexivity|]. split; [reflexivity|].
  split; [reflexivity|].
  apply (expanded_saved_is_independent (fun a b => (a ++ b)%string)
           (fun p => Ok p) img_saved "/data/" (Remove "A" "damage") saved_store
           1 1 "/data/a.jpg" "/data/a_small.jpg"); reflexivity.
Defined.

Lemma expanded_unsaved_shares_witness :
  own_skippers img_a = None
  /\ own_taggers img_a = None
  /\ wf_taggers damage_true_false cls_taggers = true
  /\ exists (h2 : heap) (ks : list string),
       expanded (fun a b => (a ++ b)%string) (fun p => Ok p) img_a "/data/"
         damage_true_false
       = (Ok (mkImage "/data/a.jpg" "/data/a_small.jpg" None None),
          damage_true_false)
       /\ mutate img_a (Add "C" "damage" "1") damage_true_false = (Ok tt, h2)
       /\ get_taggers (mkImage "/data/a.jpg" "/data/a_small.jpg" None None) h2
          = (Ok ks, h2)
       /\ key_in (mutation_user (Add "C" "damage" "1")) ks = true.
Proof.
  split; [reflexivity|]. split; [reflexivity|]. split; [reflexivity|].
  apply (expanded_unsaved_shares (fun a b => (a ++ b)%string) (fun p => Ok p)
           img_a "/data/" (Add "C" "damage" "1") damage_true_false
           "/data/a.jpg" "/data/a_small.jpg"); reflexivity.
Defined.

(** ** save is a shallow copy *)

(** C8, as amended: [save] replaces the skippers and the taggers of the
    image by shallow copies.  The set and the taggers dictionary it gives
    the image are new objects with the contents of the old ones; the
    taggers dictionary names the per-user dictionaries the old one names,
    and no per-user dictionary is made.  After a change made through the
    containers the image had before, the saved image has the same skippers
    and the same tagger ids; it shows the same tags when the change is by a
    user who was not a tagger at the time of [save], and it shows the
    change when the user was one: the per-user dictionaries stay shared. *)
Theorem save_copies_outer_only (self other : Image) (m : mutation) (h : heap) :
  wf_image h self = true ->
  taggers_ref other = taggers_ref self ->
  exists (s : Image) (h1 h2 : heap) (ks : list string),
    save self h = (Ok s, h1)
    /\ outers h !! taggers_ref s = None
    /\ sets h !! skippers_ref s = None
    /\ outers h1 !! taggers_ref s = outers h !! taggers_ref self
    /\ sets h1 !! skippers_ref s = sets h !! skippers_ref self
    /\ inners h1 = inners h
    /\ mutate other m h1 = (Ok tt, h2)
    /\ skippers_view s h2 = skippers_view s h1
    /\ get_taggers s h1 = (Ok ks, h1)
    /\ get_taggers s h2 = (Ok ks, h2)
    /\ (key_in (mutation_user m) ks = false ->
        taggers_view s h2 = taggers_view s h1)
    /\ (key_in (mutation_user m) ks = true ->
        read_tag s (mutation_user m) (mutation_tag m) h2
        = (Ok (mutation_value m), h2)).
Proof.
  unfold wf_image. intros Hwf Href.
  apply andb_prop in Hwf as [Hwf Hsk].
  destruct (sets h !! skippers_ref self) as [s0|] eqn:Hs0; [clear Hsk|discriminate].
  destruct (wf_taggers_outer h _ Hwf) as [d Hd].
  pose proof Hwf as Hb. unfold wf_taggers in Hb. rewrite Hd in Hb.
  pose proof (save_ok self h d s0 Hd Hs0) as Hsave.
  remember (mkImage (original_size_path self) (small_size_path self)
              (Some (length (sets h))) (Some (length (outers h)))) as s eqn:Es.
  remember (mkHeap (sets h ++ [s0]) (outers h ++ [d]) (inners h)) as h1 eqn:Eh1.
  assert (Ht : taggers_ref self < length (outers h))
    by (eapply lookup_lt_Some; exact Hd).
  assert (Hts : taggers_ref s = length (outers h)) by (subst s; reflexivity).
  assert (Hks : skippers_ref s = length (sets h)) by (subst s; reflexivity).
  assert (Hin1 : inners h1 = inners h) by (subst h1; reflexivity).
  assert (Hd1 : outers h1 !! taggers_ref other = Some d).
  { rewrite Href. subst h1. simpl. apply lookup_app_l_Some. exact Hd. }
  assert (Hs1 : outers h1 !! taggers_ref s = Some d).
  { rewrite Hts. subst h1. simpl. apply list_lookup_middle. reflexivity. }
  assert (Hwf1 : wf_taggers h1 (taggers_ref other) = true).
  { unfold wf_taggers. rewrite Hd1, Hin1. exact Hb. }
  assert (Hnew : taggers_ref s <> taggers_ref other) by (rewrite Href, Hts; lia).
  destruct (mutate_run other m h1 Hwf1)
    as (d' & Hd' & [(l & i & Hl & Hi & E) | (Hkey & E)]);
    (assert (d' = d) by congruence); subst d';
    exists s, h1, (exec (mutate other m) h1), (dict_keys d);
    (split; [exact Hsave|]);
    (split; [rewrite Hts; apply lookup_ge_None_2; lia|]);
    (split; [rewrite Hks; apply lookup_ge_None_2; lia|]);
    (split; [rewrite Hs1, Hd; reflexivity|]);
    (split; [rewrite Hks; subst h1; simpl; apply list_lookup_middle; reflexivity|]);
    (split; [exact Hin1|]);
    (split; [unfold exec; rewrite E; reflexivity|]);
    unfold exec; rewrite E; simpl.
  - assert (Hs2 : outers
                    (mkHeap (sets h1) (outers h1)
                       (<[l := dict_set (mutation_tag m) (mutation_value m) i]>
                          (inners h1))) !! taggers_ref s = Some d) by exact Hs1.
    repeat split.
    + apply get_taggers_ok. exact Hs1.
    + apply get_taggers_ok. exact Hs2.
    + intros Hk. rewrite (dict_get_key_in _ l d Hl) in Hk. discriminate.
    + intros _. rewrite (read_tag_eq s _ _ _ d Hs2), Hl. simpl.
      rewrite list_lookup_insert_eq by (eapply lookup_lt_Some; exact Hi).
      rewrite dict_get_set_eq. reflexivity.
  - assert (Hs2 : outers
                    (mkHeap (sets h1)
                       (<[taggers_ref other :=
                            d ++ [(mutation_user m, length (inners h1))]]>
                          (outers h1))
                       (inners h1 ++ [[(mutation_tag m, mutation_value m)]]))
                  !! taggers_ref s = Some d).
    { simpl. rewrite list_lookup_insert_ne by congruence. exact Hs1. }
    repeat split.
    + apply get_taggers_ok. exact Hs1.
    + apply get_taggers_ok. exact Hs2.
    + intros _. unfold taggers_view. rewrite Hs2, Hs1.
      apply deref_all_agree. intros kv Hkv. simpl.
      apply lookup_app_l. rewrite Hin1.
      rewrite forallb_forall in Hb. specialize (Hb kv Hkv).
      apply Nat.ltb_lt in Hb. exact Hb.
    + intros Hk. rewrite Hkey in Hk. discriminate.
Qed.

Lemma save_copies_outer_only_witness :
  wf_image damage_true_false img_a = true
  /\ taggers_ref img_b = taggers_ref img_a
  /\ exists (s : Image) (h1 h2 : heap) (ks : list string),
       save img_a damage_true_false = (Ok s, h1)
       /\ outers damage_true_false !! taggers_ref s = None
       /\ sets damage_true_false !! skippers_ref s = None
       /\ outers h1 !! taggers_ref s = outers damage_true_false !! taggers_ref img_a
       /\ sets h1 !! skippers_ref s = sets damage_true_false !! skippers_ref img_a
       /\ inners h1 = inners damage_true_false
       /\ mutate img_b (Remove "A" "damage") h1 = (Ok tt, h2)
       /\ skippers_view s h2 = skippers_view s h1
       /\ get_taggers s h1 = (Ok ks, h1)
       /\ get_taggers s h2 = (Ok ks, h2)
       /\ (key_in (mutation_user (Remove "A" "damage")) ks = false ->
           taggers_view s h2 = taggers_view s h1)
       /\ (key_in (mutation_user (Remove "A" "damage")) ks = true ->
           read_tag s (mutation_user (Remove "A" "damage"))
             (mutation_tag (Remove "A" "damage")) h2
           = (Ok (mutation_value (Remove "A" "damage")), h2)).
Proof.
  split; [reflexivity|]. split; [reflexivity|].
  apply (save_copies_outer_only img_a img_b (Remove "A" "damage")
           damage_true_false); reflexivity.
Defined.

(** X8: once saved, an image writes to its own taggers dictionary: a
    mutation made through the saved image shows in its own tagger ids, and
    leaves the tagger ids of every other image as they were, and all the
    tags of every other image too when the mutation is by a user who was
    not a tagger at the time of [save]. *)
Theorem saved_image_is_detached (self other : Image) (m : mutation) (h : heap) :
  wf_image h self = true ->
  wf_taggers h (taggers_ref other) = true ->
  exists (s : Image) (h1 h2 : heap) (ks ko : list string),
    save self h = (Ok s, h1)
    /\ mutate s m h1 = (Ok tt, h2)
    /\ get_taggers s h1 = (Ok ks, h1)
    /\ get_taggers s h2
       = (Ok (if key_in (mutation_user m) ks then ks
              else ks ++ [mutation_user m]), h2)
    /\ get_taggers other h1 = (Ok ko, h1)
    /\ get_taggers other h2 = (Ok ko, h2)
    /\ (key_in (mutation_user m) ks = false ->
        taggers_view other h2 = taggers_view other h1).
Proof.
  unfold wf_image. intros Hwf Hwfo.
  apply andb_prop in Hwf as [Hwf Hsk].
  destruct (sets h !! skippers_ref self) as [s0|] eqn:Hs0; [clear Hsk|discriminate].
  destruct (wf_taggers_outer h _ Hwf) as [d Hd].
  destruct (wf_taggers_outer h _ Hwfo) as [do Hdo].
  pose proof Hwf as Hb. unfold wf_taggers in Hb. rewrite Hd in Hb.
  pose proof Hwfo as Hbo. unfold wf_taggers in Hbo. rewrite Hdo in Hbo.
  pose proof (save_ok self h d s0 Hd Hs0) as Hsave.
  remember (mkImage (original_size_path self) (small_size_path self)
              (Some (length (sets h))) (Some (length (outers h)))) as s eqn:Es.
  remember (mkHeap (sets h ++ [s0]) (outers h ++ [d]) (inners h)) as h1 eqn:Eh1.
  assert (Hto : taggers_ref other < length (outers h))
    by (eapply lookup_lt_Some; exact Hdo).
  assert (Hts : taggers_ref s = length (outers h)) by (subst s; reflexivity).
  assert (Hin1 : inners h1 = inners h) by (subst h1; reflexivity).
  assert (Hlen1 : length (outers h1) = S (length (outers h)))
    by (subst h1; simpl; rewrite length_app; simpl; lia).
  assert (Ho1 : outers h1 !! taggers_ref other = Some do)
    by (subst h1; simpl; apply lookup_app_l_Some; exact Hdo).
  assert (Hs1 : outers h1 !! taggers_ref s = Some d)
    by (rewrite Hts; subst h1; simpl; apply list_lookup_middle; reflexivity).
  assert (Hwf1 : wf_taggers h1 (taggers_ref s) = true)
    by (unfold wf_taggers; rewrite Hs1, Hin1; exact Hb).
  assert (Hne : taggers_ref s <> taggers_ref other) by (rewrite Hts; lia).
  destruct (mutate_run s m h1 Hwf1)
    as (d' & Hd' & [(l & i & Hl & Hi & E) | (Hkey & E)]);
    (assert (d' = d) by congruence); subst d';
    exists s, h1, (exec (mutate s m) h1), (dict_keys d), (dict_keys do);
    (split; [exact Hsave|]);
    (split; [unfold exec; rewrite E; reflexivity|]);
    (split; [apply get_taggers_ok; exact Hs1|]);
    unfold exec; rewrite E; simpl.
  - rewrite (dict_get_key_in _ l d Hl). repeat split.
    + apply get_taggers_ok. exact Hs1.
    + apply get_taggers_ok. exact Ho1.
    + apply get_taggers_ok. exact Ho1.
    + intros Hk. discriminate.
  - rewrite Hkey. repeat split.
    + rewrite (get_taggers_ok s _ (d ++ [(mutation_user m, length (inners h1))])).
      * unfold dict_keys. rewrite (map_app fst). reflexivity.
      * simpl. apply list_lookup_insert_eq. rewrite Hlen1, Hts. lia.
    + apply get_taggers_ok. exact Ho1.
    + apply get_taggers_ok. simpl.
      rewrite list_lookup_insert_ne by exact Hne. exact Ho1.
    + intros _. unfold taggers_view. simpl.
      rewrite list_lookup_insert_ne by exact Hne. rewrite Ho1.
      apply deref_all_agree. intros kv Hkv. simpl.
      apply lookup_app_l. rewrite Hin1.
      rewrite forallb_forall in Hbo. specialize (Hbo kv Hkv).
      apply Nat.ltb_lt in Hbo. exact Hbo.
Qed.

Lemma saved_image_is_detached_witness :
  wf_image damage_true_false img_a = true
  /\ wf_taggers damage_true_false (taggers_ref img_b) = true
  /\ exists (s : Image) (h1 h2 : heap) (ks ko : list string),
       save img_a damage_true_false = (Ok s, h1)
       /\ mutate s (Add "C" "damage" "true") h1 = (Ok tt, h2)
       /\ get_taggers s h1 = (Ok ks, h1)
       /\ get_taggers s h2
          = (Ok (if key_in (mutation_user (Add "C" "damage" "true")) ks then ks
                 else ks ++ [mutation_user (Add "C" "damage" "true")]), h2)
       /\ get_taggers img_b h1 = (Ok ko, h1)
       /\ get_taggers img_b h2 = (Ok ko, h2)
       /\ (key_in (mutation_user (Add "C" "damage" "true")) ks = false ->
           taggers_view img_b h2 = taggers_view img_b h1).
Proof.
  split; [reflexivity|]. split; [reflexivity|].
  apply (saved_image_is_detached img_a img_b (Add "C" "damage" "true")
           damage_true_false); reflexivity.
Defined.
